(** * dagster-sqlmesh: the identifier parser and the translator

    A shallow embedding of [dagster_sqlmesh/types.py] and
    [dagster_sqlmesh/translator.py].  Python values that the code handles
    are modelled as follows:

    - [str] is [string]; the methods [str.split], [str.strip] and
      [str.join] are written out in [Module PyStr];
    - an exception is a value of [PyError], and a call that may raise
      returns in the error monad [Exc];
    - a [dict] with string keys is a [gmap string _], a [set] of strings a
      [gset string];
    - the libraries the code calls into (sqlglot's [exp.to_table], dagster's
      [AssetKey.from_user_string] and the signature of [AssetOut]) are
      parameters of the definitions that use them. *)

From Stdlib Require Import Ascii ZArith.
From stdpp Require Import strings gmap list.

Local Open Scope Z_scope.

(** ** Exceptions *)

Inductive PyError : Set :=
  | IndexError   (* a sequence index out of range *)
  | TypeError    (* a call that does not fit the callee's signature *)
  | ParseError.  (* raised by the SQL identifier parser *)

Inductive Exc (A : Type) : Type :=
  | Return (a : A)
  | Raise (e : PyError).

Arguments Return {A} a.
Arguments Raise {A} e.

#[global] Instance Exc_ret : MRet Exc := fun _ a => Return a.
#[global] Instance Exc_bind : MBind Exc := fun _ _ f m =>
  match m with
  | Return a => f a
  | Raise e => Raise e
  end.
#[global] Instance Exc_fmap : FMap Exc := fun _ _ f m =>
  match m with
  | Return a => Return (f a)
  | Raise e => Raise e
  end.

#[global] Instance PyError_eq_dec : EqDecision PyError.
Proof. solve_decision. Defined.

(** ** Python strings and sequences *)

Module PyStr.

(** The double-quote character, code point 34. *)
Definition dquote : ascii := ascii_of_nat 34.

(** The single-quote character, code point 39. *)
Definition squote : ascii := "'"%char.

(** [c in chars] for a character [c]. *)
Fixpoint char_in (c : ascii) (chars : string) : bool :=
  match chars with
  | EmptyString => false
  | String d chars' => if Ascii.eqb c d then true else char_in c chars'
  end.

(** [s.split(sep)] for a one-character separator: the pieces between the
    occurrences of [sep], empty pieces included; never the empty list. *)
Fixpoint split (sep : ascii) (s : string) : list string :=
  match s with
  | EmptyString => [EmptyString]
  | String c s' =>
      if Ascii.eqb c sep then EmptyString :: split sep s'
      else match split sep s' with
           | [] => [String c EmptyString]
           | piece :: pieces => String c piece :: pieces
           end
  end.

(** [s.lstrip(chars)]: drop the leading characters that occur in [chars]. *)
Fixpoint lstrip (chars : string) (s : string) : string :=
  match s with
  | EmptyString => EmptyString
  | String c s' => if char_in c chars then lstrip chars s' else s
  end.

(** [s.rstrip(chars)]: drop the trailing characters that occur in [chars]. *)
Fixpoint rstrip (chars : string) (s : string) : string :=
  match s with
  | EmptyString => EmptyString
  | String c s' =>
      match rstrip chars s' with
      | EmptyString => if char_in c chars then EmptyString else String c EmptyString
      | kept => String c kept
      end
  end.

(** [s.strip(chars)]. *)
Definition strip (chars : string) (s : string) : string :=
  rstrip chars (lstrip chars s).

(** [sep.join(parts)]. *)
Fixpoint join (sep : string) (parts : list string) : string :=
  match parts with
  | [] => EmptyString
  | [p] => p
  | p :: rest => p +:+ sep +:+ join sep rest
  end.

(** Every character of [s] satisfies [p]. *)
Fixpoint all_chars (p : ascii -> bool) (s : string) : bool :=
  match s with
  | EmptyString => true
  | String c s' => p c && all_chars p s'
  end.

(** [s.startswith(prefix)]. *)
Definition startswith (prefix s : string) : bool := String.prefix prefix s.

End PyStr.

(** [seq[i]] for a list: a negative index counts from the end, and an index
    outside the list raises [IndexError]. *)
Definition getitem {A : Type} (seq : list A) (i : Z) : Exc A :=
  let n := Z.of_nat (length seq) in
  let j := if i <? 0 then i + n else i in
  if (j <? 0) || (n <=? j) then Raise IndexError
  else match seq !! Z.to_nat j with
       | Some x => Return x
       | None => Raise IndexError
       end.

(** ** types.py *)

Module SQLMeshParsedFQN.

Record t : Set := {
  catalog : string;
  schema : string;
  view_name : string;
}.

(** The argument of [a.strip] in [parse]: a single and a double quote. *)
Definition quote_chars : string :=
  String PyStr.squote (String PyStr.dquote EmptyString).

(** [SQLMeshParsedFQN.parse]. *)
Definition parse (fqn : string) : Exc t :=
  let split_fqn := PyStr.split "." fqn in
  (* Remove any quotes *)
  let split_fqn := map (fun a => PyStr.strip quote_chars a) split_fqn in
  c ← getitem split_fqn 0;
  s ← getitem split_fqn 1;
  v ← getitem split_fqn 2;
  mret {| catalog := c; schema := s; view_name := v |}.

End SQLMeshParsedFQN.

(** ** The collaborators: sqlglot, sqlmesh and dagster *)

(** sqlglot's [exp.Table], seen through the three properties the translator
    reads; each is a string, empty when the part is absent. *)
Module Table.
Record t : Set := { catalog : string; db : string; name : string }.
End Table.

(** sqlmesh's [Model], seen through [fqn] and [tags]. *)
Module Model.
Record t : Set := { fqn : string; tags : list string }.
End Model.

(** sqlmesh's [Context], seen through [engine_adapter.dialect]. *)
Module Context.
Record EngineAdapter : Set := { dialect : string }.
Record t : Set := { engine_adapter : EngineAdapter }.
End Context.

(** [SQLMeshModelDep] of types.py. *)
Module SQLMeshModelDep.

Record t : Set := { fqn : string; model : option Model.t }.

Definition parse_fqn (self : t) : Exc SQLMeshParsedFQN.t :=
  SQLMeshParsedFQN.parse (fqn self).

End SQLMeshModelDep.

(** dagster's [AssetKey]: a path of string components. *)
Record AssetKey : Set := { path : list string }.

#[global] Instance AssetKey_eq_dec : EqDecision AssetKey.
Proof. solve_decision. Defined.

(** The Python values that travel through [**kwargs] and the untyped
    fields of the descriptors. *)
Inductive PyVal : Type :=
  | PyNone
  | PyBool (b : bool)
  | PyStr (s : string)
  | PySet (xs : gset string)
  | PyDict (d : gmap string string)
  | PyAssetKey (k : AssetKey).

#[global] Instance PyVal_eq_dec : EqDecision PyVal.
Proof. solve_decision. Defined.

(** [d.pop(k, default)] on a dictionary: the value and the dictionary that
    is left. *)
Definition dict_pop (k : string) (dflt : PyVal) (d : gmap string PyVal)
  : PyVal * gmap string PyVal :=
  (default dflt (d !! k), delete k d).

(** The kinds of [inspect.Parameter]. *)
Inductive ParamKind : Set :=
  | POSITIONAL_ONLY
  | POSITIONAL_OR_KEYWORD
  | VAR_POSITIONAL
  | KEYWORD_ONLY
  | VAR_KEYWORD.

#[global] Instance ParamKind_eq_dec : EqDecision ParamKind.
Proof. solve_decision. Defined.

(** [inspect.signature(f).parameters]: the parameter names in order, each with
    its kind. *)
Definition Signature : Set := list (string * ParamKind).

(** [name in signature(f).parameters]. *)
Definition in_parameters (name : string) (sig : Signature) : bool :=
  bool_decide (name ∈ sig.*1).

(** A keyword argument [name=...] binds to a parameter of that name when
    the parameter can be passed by keyword. *)
Definition takes_keyword (sig : Signature) (name : string) : bool :=
  existsb (fun p => bool_decide (p.1 = name) &&
                    (bool_decide (p.2 = POSITIONAL_OR_KEYWORD) ||
                     bool_decide (p.2 = KEYWORD_ONLY))) sig.

(** The signature ends in a [**kwargs] parameter. *)
Definition has_var_keyword (sig : Signature) : bool :=
  existsb (fun p => bool_decide (p.2 = VAR_KEYWORD)) sig.

(** Python's binding of the keyword arguments of a call [f(k1=v1, ...)] to
    the signature of [f]: a keyword given twice, or one that no parameter
    takes when there is no [**kwargs] to collect it, raises [TypeError]. *)
Fixpoint bind_keywords (sig : Signature) (given : list (string * PyVal))
    (bound : gmap string PyVal) : Exc (gmap string PyVal) :=
  match given with
  | [] => Return bound
  | (k, v) :: given' =>
      if bool_decide (is_Some (bound !! k)) then Raise TypeError
      else if takes_keyword sig k || has_var_keyword sig
           then bind_keywords sig given' (<[k := v]> bound)
           else Raise TypeError
  end.

(** dagster's [AssetOut], seen through the keyword arguments its
    constructor was called with. *)
Record AssetOut : Type := { arguments : gmap string PyVal }.

(** ** translator.py *)

Module IntermediateAssetOut.

Record t : Type := {
  model_key : string;
  asset_key : string;
  tags : PyVal;
  is_required : PyVal;
  group_name : PyVal;
  kinds : PyVal;
  kwargs : gmap string PyVal;
}.

(** The constructor the [@dataclass] decorator generates: an argument
    that is not given ([None] here) takes the default of its field. *)
Definition init (model_key asset_key : string)
    (tags is_required group_name kinds : option PyVal)
    (kwargs : option (gmap string PyVal)) : t :=
  {| model_key := model_key;
     asset_key := asset_key;
     tags := default PyNone tags;
     is_required := default (PyBool true) is_required;
     group_name := default PyNone group_name;
     kinds := default PyNone kinds;
     kwargs := default ∅ kwargs |}.

Section Platform.
(** dagster's [AssetKey.from_user_string]. *)
Variable from_user_string : string -> AssetKey.
(** [signature(AssetOut)] in the running dagster version. *)
Variable AssetOut_signature : Signature.

(** The keyword arguments of the call [AssetOut(key=..., ..., **self.kwargs)]
    in [to_asset_out]. *)
Definition asset_out_call (self : t) : list (string * PyVal) :=
  let asset_key := from_user_string (asset_key self) in
  let kinds := kinds self in
  let kinds := if negb (in_parameters "kinds" AssetOut_signature)
               then PyNone else kinds in
  [("key", PyAssetKey asset_key);
   ("tags", tags self);
   ("is_required", is_required self);
   ("group_name", group_name self);
   ("kinds", kinds)] ++ map_to_list (kwargs self).

(** [IntermediateAssetOut.to_asset_out]. *)
Definition to_asset_out (self : t) : Exc AssetOut :=
  bound ← bind_keywords AssetOut_signature (asset_out_call self) ∅;
  mret {| arguments := bound |}.
End Platform.

End IntermediateAssetOut.

Module IntermediateAssetDep.

Record t : Set := { key : string }.

Section Platform.
Variable from_user_string : string -> AssetKey.

(** [IntermediateAssetDep.to_asset_key]. *)
Definition to_asset_key (self : t) : AssetKey :=
  from_user_string (key self).
End Platform.

End IntermediateAssetDep.

Module SQLMeshDagsterTranslator.

Section Parser.
(** sqlglot's [exp.to_table]: the table reference a name parses to, or
    the parser's error. *)
Variable to_table : string -> Exc Table.t.

Definition get_asset_key_name (fqn : string) : Exc (list string) :=
  table ← to_table fqn;
  let asset_key_name := [Table.catalog table; Table.db table; Table.name table] in
  mret asset_key_name.

Definition get_asset_key (context : Context.t) (fqn : string) : Exc AssetKey :=
  path ← get_asset_key_name fqn;
  mret {| path := path |}.

Definition get_group_name (context : Context.t) (model : Model.t) : Exc string :=
  path ← get_asset_key_name (Model.fqn model);
  getitem path (-2).

Definition get_asset_key_str (fqn : string) : Exc string :=
  table ← to_table fqn;
  let asset_key_name := [Table.catalog table; Table.db table; Table.name table] in
  mret ("sqlmesh__" +:+ PyStr.join "_" asset_key_name).
End Parser.

Definition get_context_dialect (context : Context.t) : string :=
  Context.dialect (Context.engine_adapter context).

Definition create_asset_dep (key : string) : IntermediateAssetDep.t :=
  {| IntermediateAssetDep.key := key |}.

Definition create_asset_out (model_key asset_key : string)
    (kwargs : gmap string PyVal) : IntermediateAssetOut.t :=
  let '(kinds, kwargs) := dict_pop "kinds" PyNone kwargs in
  let '(tags, kwargs) := dict_pop "tags" PyNone kwargs in
  let '(group_name, kwargs) := dict_pop "group_name" PyNone kwargs in
  let '(is_required, kwargs) := dict_pop "is_required" (PyBool false) kwargs in
  IntermediateAssetOut.init model_key asset_key
    (Some tags) (Some is_required) (Some group_name) (Some kinds) (Some kwargs).

(** The comprehension [{k: "" for k in model.tags}]. *)
Definition get_tags (context : Context.t) (model : Model.t) : gmap string string :=
  foldl (fun d k => <[k := ""]> d) ∅ (Model.tags model).

End SQLMeshDagsterTranslator.

(** ** types.py: the multi-asset options *)

#[global] Instance AssetKey_countable : Countable AssetKey.
Proof. apply (inj_countable' path (λ p, {| path := p |})). by intros []. Defined.

(** The protocol [ConvertibleToAssetOut]: an object with a method
    [to_asset_out]. *)
Class ConvertibleToAssetOut (A : Type) : Type :=
  to_asset_out : A → Exc AssetOut.

(** The protocol [ConvertibleToAssetKey]: an object with a method
    [to_asset_key]. *)
Class ConvertibleToAssetKey (A : Type) : Type :=
  to_asset_key : A → AssetKey.

(** [IntermediateAssetOut] and [IntermediateAssetDep] follow the
    protocols, on a given dagster. *)
Definition IntermediateAssetOut_convertible
    (from_user_string : string → AssetKey) (AssetOut_signature : Signature)
  : ConvertibleToAssetOut IntermediateAssetOut.t :=
  IntermediateAssetOut.to_asset_out from_user_string AssetOut_signature.

Definition IntermediateAssetDep_convertible
    (from_user_string : string → AssetKey)
  : ConvertibleToAssetKey IntermediateAssetDep.t :=
  IntermediateAssetDep.to_asset_key from_user_string.

Module SQLMeshMultiAssetOptions.

Record t (O D : Type) : Type := {
  outs : gmap string O;
  deps : list D;
  internal_asset_deps : gmap string (gset string);
}.

Arguments outs {O D} _.
Arguments deps {O D} _.
Arguments internal_asset_deps {O D} _.

(** The constructor the [@dataclass] decorator generates: a field that
    is not given takes the value of its [default_factory]. *)
Definition init {O D : Type} (outs : option (gmap string O)) (deps : option (list D))
    (internal_asset_deps : option (gmap string (gset string))) : t O D :=
  {| outs := default ∅ outs;
     deps := default [] deps;
     internal_asset_deps := default ∅ internal_asset_deps |}.

Section Resolve.
Context {O D : Type} `{!ConvertibleToAssetOut O, !ConvertibleToAssetKey D}.
(** dagster's [AssetKey.from_user_string]. *)
Variable from_user_string : string → AssetKey.

(** [{key: out.to_asset_out() for key, out in self.outs.items()}]: the
    entries are resolved one after the other, and the first exception
    ends the comprehension. *)
Definition to_asset_outs (self : t O D) : Exc (gmap string AssetOut) :=
  resolved ← mapM (λ item : string * O,
                     out ← to_asset_out item.2; mret (item.1, out))
                  (map_to_list (outs self));
  mret (list_to_map resolved).

(** [[dep.to_asset_key() for dep in self.deps]]. *)
Definition to_asset_deps (self : t O D) : list AssetKey :=
  (λ dep, to_asset_key dep) <$> deps self.

(** The nested comprehension of [to_internal_asset_deps]. *)
Definition to_internal_asset_deps (self : t O D) : gmap string (gset AssetKey) :=
  (λ deps : gset string, set_map from_user_string deps) <$> internal_asset_deps self.
End Resolve.

End SQLMeshMultiAssetOptions.

(** ** Instances of the collaborators, for the examples *)

(** The parts of a dotted name: a dot outside double quotes separates two
    parts, and the double quotes themselves are dropped.  [None] when a
    quote is left open. *)
Fixpoint table_parts (quoted : bool) (s : string) : option (list string) :=
  match s with
  | EmptyString => if quoted then None else Some [EmptyString]
  | String c s' =>
      if Ascii.eqb c PyStr.dquote then table_parts (negb quoted) s'
      else if Ascii.eqb c "." && negb quoted
      then cons EmptyString <$> table_parts false s'
      else (fun ps => match ps with
                      | [] => [String c EmptyString]
                      | p :: ps' => String c p :: ps'
                      end) <$> table_parts quoted s'
  end.

(** A table-reference parser for the names SQLMesh writes: up to three
    parts separated by dots, each optionally in double quotes, filled in
    from the right as [exp.to_table] does.  It stands for [exp.to_table] in
    the examples; the theorems are stated for every parser. *)
Definition dotted_to_table (fqn : string) : Exc Table.t :=
  match table_parts false fqn with
  | Some [n] => Return {| Table.catalog := ""; Table.db := ""; Table.name := n |}
  | Some [d; n] => Return {| Table.catalog := ""; Table.db := d; Table.name := n |}
  | Some [c; d; n] => Return {| Table.catalog := c; Table.db := d; Table.name := n |}
  | _ => Raise ParseError
  end.

(** dagster's [AssetKey.from_user_string]: the components separated by [/]. *)
Definition slash_from_user_string (s : string) : AssetKey :=
  {| path := PyStr.split "/" s |}.

(** The keyword parameters of [AssetOut] in a dagster release that
    predates [kinds]. *)
Definition AssetOut_signature_without_kinds : Signature :=
  (fun n => (n, POSITIONAL_OR_KEYWORD)) <$>
  ["key_prefix"; "key"; "dagster_type"; "description"; "is_required";
   "io_manager_key"; "metadata"; "group_name"; "code_version";
   "freshness_policy"; "auto_materialize_policy"; "backfill_policy";
   "owners"; "tags"].

(** The keyword parameters of [AssetOut] in a dagster release that has
    [kinds]. *)
Definition AssetOut_signature_with_kinds : Signature :=
  ((fun n => (n, POSITIONAL_OR_KEYWORD)) <$>
   ["key_prefix"; "key"; "dagster_type"; "description"; "is_required";
    "io_manager_key"; "metadata"; "group_name"; "code_version";
    "automation_condition"; "backfill_policy"; "owners"; "tags"; "kinds"])
  ++ [("kwargs", VAR_KEYWORD)].

(** The alphabet of the internal key: ASCII letters, digits and the
    underscore. *)
Definition is_alnum (c : ascii) : bool :=
  let n := nat_of_ascii c in
  ((48 <=? n) && (n <=? 57) || (65 <=? n) && (n <=? 90) || (97 <=? n) && (n <=? 122))%nat.

Definition is_alnum_or_underscore (c : ascii) : bool :=
  is_alnum c || Ascii.eqb c "_".

(** The identifier ['a'."b".c] of the specification. *)
Definition quoted_abc : string :=
  "'a'." +:+ String PyStr.dquote "b" +:+ String PyStr.dquote ".c".

(** The name ["my-db"."main"."orders"], each part in double quotes. *)
Definition quoted_my_db : string :=
  String PyStr.dquote "my-db" +:+ String PyStr.dquote "." +:+
  String PyStr.dquote "main" +:+ String PyStr.dquote "." +:+
  String PyStr.dquote "orders" +:+ String PyStr.dquote "".

(** [s.count(c)] for a character [c]. *)
Fixpoint count_char (c : ascii) (s : string) : nat :=
  match s with
  | EmptyString => 0%nat
  | String d s' => if Ascii.eqb d c then S (count_char c s') else count_char c s'
  end.

(** The keywords that [to_asset_out] writes out in its call of [AssetOut]. *)
Definition explicit_keywords : list string :=
  ["key"; "tags"; "is_required"; "group_name"; "kinds"].

(** The keywords that [create_asset_out] takes out of its [**kwargs]. *)
Definition popped_keywords : list string :=
  ["kinds"; "tags"; "group_name"; "is_required"].

(** The signature takes the keyword [k], by a parameter of that name or
    by its [**kwargs]. *)
Definition accepts (sig : Signature) (k : string) : bool :=
  takes_keyword sig k || has_var_keyword sig.

(** The call of [AssetOut] in [to_asset_out] fits the signature: the
    keywords that are written out are accepted, and so is every key of
    [kwargs], none of which is one of those written out. *)
Definition call_fits (sig : Signature) (self : IntermediateAssetOut.t) : Prop :=
  Forall (λ k, accepts sig k = true) explicit_keywords ∧
  ∀ k, is_Some (IntermediateAssetOut.kwargs self !! k) →
       accepts sig k = true ∧ k ∉ explicit_keywords.

(** A dagster whose [AssetOut] has no [kinds] parameter but collects
    unknown keywords in [**kwargs]. *)
Definition AssetOut_signature_kwargs_only : Signature :=
  ((fun n => (n, POSITIONAL_OR_KEYWORD)) <$>
   ["key"; "is_required"; "group_name"; "tags"])
  ++ [("kwargs", VAR_KEYWORD)].

(** The first and the last character of a string. *)
Definition first_char (s : string) : option ascii :=
  match s with
  | EmptyString => None
  | String c _ => Some c
  end.

Fixpoint last_char (s : string) : option ascii :=
  match s with
  | EmptyString => None
  | String c EmptyString => Some c
  | String _ s' => last_char s'
  end.

(** [r] is [s] without its leading and trailing characters from [chars]:
    what was cut off on either side consists of such characters, and [r]
    neither begins nor ends with one. *)
Definition stripped_of (chars s r : string) : Prop :=
  (∃ pre post, s = pre +:+ r +:+ post ∧
     PyStr.all_chars (fun c => PyStr.char_in c chars) pre = true ∧
     PyStr.all_chars (fun c => PyStr.char_in c chars) post = true) ∧
  (∀ c, first_char r = Some c → PyStr.char_in c chars = false) ∧
  (∀ c, last_char r = Some c → PyStr.char_in c chars = false).

(** * Properties *)

(** ** Strings and sequences *)

Section strings.
Implicit Types (s t : string) (c sep : ascii).

Lemma app_empty_l s : "" +:+ s = s.
Proof. reflexivity. Qed.

Lemma app_String c s t : String c s +:+ t = String c (s +:+ t).
Proof. reflexivity. Qed.

Lemma app_empty_r s : s +:+ "" = s.
Proof. induction s as [|c s IH]; [done|]. by rewrite app_String, IH. Qed.

Lemma app_assoc_str s t u : (s +:+ t) +:+ u = s +:+ t +:+ u.
Proof. induction s as [|c s IH]; [done|]. by rewrite !app_String, IH. Qed.

Lemma split_nonempty sep s : PyStr.split sep s ≠ [].
Proof.
  destruct s as [|c s]; simpl; [done|].
  destruct (Ascii.eqb c sep); [done|].
  by destruct (PyStr.split sep s).
Qed.

(** Joining the pieces with the separator gives the string back. *)
Lemma join_split sep s : PyStr.join (String sep "") (PyStr.split sep s) = s.
Proof.
  induction s as [|c s IH]; [done|]. simpl.
  destruct (Ascii.eqb_spec c sep) as [->|Hne].
  - pose proof (split_nonempty sep s) as Hs.
    destruct (PyStr.split sep s) as [|p ps] eqn:E; [done|].
    change (PyStr.join (String sep "") ("" :: p :: ps))
      with ("" +:+ String sep "" +:+ PyStr.join (String sep "") (p :: ps)).
    by rewrite IH.
  - pose proof (split_nonempty sep s) as Hs.
    destruct (PyStr.split sep s) as [|p ps] eqn:E; [done|].
    destruct ps as [|p' ps].
    + simpl in *. by rewrite IH.
    + change (PyStr.join (String sep "") (String c p :: p' :: ps))
        with (String c p +:+ String sep "" +:+ PyStr.join (String sep "") (p' :: ps)).
      rewrite app_String. f_equal. exact IH.
Qed.

(** No piece contains the separator. *)
Lemma split_pieces sep s :
  Forall (fun p => PyStr.char_in sep p = false) (PyStr.split sep s).
Proof.
  induction s as [|c s IH]; simpl.
  - by constructor.
  - destruct (Ascii.eqb_spec c sep) as [->|Hne].
    + by constructor.
    + assert (Ascii.eqb sep c = false) as Hsc
        by (destruct (Ascii.eqb_spec sep c); congruence).
      destruct (PyStr.split sep s) as [|p ps].
      * constructor; [|done]. simpl. by rewrite Hsc.
      * inversion IH as [|? ? Hp Hps]; subst.
        constructor; [|done]. simpl. by rewrite Hsc.
Qed.

Lemma lstrip_spec chars s :
  (∃ pre, s = pre +:+ PyStr.lstrip chars s ∧
          PyStr.all_chars (fun c => PyStr.char_in c chars) pre = true) ∧
  (∀ c, first_char (PyStr.lstrip chars s) = Some c → PyStr.char_in c chars = false).
Proof.
  induction s as [|c s [[pre [Hpre Hall]] Hfirst]]; simpl.
  - split; [by exists ""|done].
  - destruct (PyStr.char_in c chars) eqn:Hc.
    + split; [|done]. exists (String c pre). rewrite app_String, <- Hpre.
      by simpl; rewrite Hc, Hall.
    + split; [by exists ""|]. simpl. by intros ? [= <-].
Qed.

Lemma rstrip_spec chars s :
  (∃ post, s = PyStr.rstrip chars s +:+ post ∧
           PyStr.all_chars (fun c => PyStr.char_in c chars) post = true) ∧
  (∀ c, last_char (PyStr.rstrip chars s) = Some c → PyStr.char_in c chars = false) ∧
  (∀ c, first_char (PyStr.rstrip chars s) = Some c → first_char s = Some c).
Proof.
  induction s as [|c s [[post [Hpost Hall]] [Hlast Hfirst]]]; simpl.
  - split; [by exists ""|done].
  - destruct (PyStr.rstrip chars s) as [|d kept] eqn:E.
    + destruct (PyStr.char_in c chars) eqn:Hc.
      * split; [|done]. exists (String c post). rewrite app_empty_l in *.
        subst post. by simpl; rewrite Hc, Hall.
      * split; [|split].
        -- exists post. rewrite app_String. by rewrite <- Hpost.
        -- simpl. by intros ? [= <-].
        -- done.
    + split; [|split].
      * exists post. rewrite app_String. by rewrite <- Hpost.
      * intros c' Hc'. apply Hlast. exact Hc'.
      * done.
Qed.

(** [str.strip] removes exactly the leading and trailing [chars]. *)
Lemma strip_spec chars s : stripped_of chars s (PyStr.strip chars s).
Proof.
  unfold stripped_of, PyStr.strip.
  destruct (lstrip_spec chars s) as [[pre [Hpre Hallpre]] Hfirst].
  destruct (rstrip_spec chars (PyStr.lstrip chars s))
    as [[post [Hpost Hallpost]] [Hlast Hkeep]].
  split; [|split].
  - exists pre, post. split; [|done]. by rewrite <- Hpost.
  - intros c Hc. apply Hfirst, Hkeep, Hc.
  - exact Hlast.
Qed.
End strings.

Section sequences.
Context {A : Type}.
Implicit Types (l : list A) (i : Z).

Lemma getitem_nonneg l i x :
  0 ≤ i → l !! Z.to_nat i = Some x → getitem l i = Return x.
Proof.
  intros Hi Hx. unfold getitem.
  apply lookup_lt_Some in Hx as Hlt.
  destruct (Z.ltb_spec i 0); [lia|].
  destruct (Z.ltb_spec i 0); [lia|].
  destruct (Z.leb_spec (Z.of_nat (length l)) i); [lia|].
  simpl. by rewrite Hx.
Qed.

Lemma getitem_beyond l i :
  Z.of_nat (length l) ≤ i → getitem l i = Raise IndexError.
Proof.
  intros Hi. unfold getitem.
  destruct (Z.ltb_spec i 0); [lia|].
  destruct (Z.ltb_spec i 0); [lia|].
  destruct (Z.leb_spec (Z.of_nat (length l)) i); [|lia].
  done.
Qed.
End sequences.

(** ** The identifier parser *)

(** [parse] reads the first three stripped segments and fails when there
    are fewer. *)
Lemma parse_unfold fqn :
  SQLMeshParsedFQN.parse fqn =
  match PyStr.split "." fqn with
  | a :: b :: c :: _ =>
      Return {| SQLMeshParsedFQN.catalog := PyStr.strip SQLMeshParsedFQN.quote_chars a;
                SQLMeshParsedFQN.schema := PyStr.strip SQLMeshParsedFQN.quote_chars b;
                SQLMeshParsedFQN.view_name := PyStr.strip SQLMeshParsedFQN.quote_chars c |}
  | _ => Raise IndexError
  end.
Proof.
  unfold SQLMeshParsedFQN.parse.
  destruct (PyStr.split "." fqn) as [|a [|b [|c rest]]]; simpl map.
  - by rewrite (getitem_beyond [] 0).
  - rewrite (getitem_nonneg _ 0 (PyStr.strip SQLMeshParsedFQN.quote_chars a)) by done.
    cbn [mbind Exc_bind].
    by rewrite (getitem_beyond _ 1).
  - rewrite (getitem_nonneg _ 0 (PyStr.strip SQLMeshParsedFQN.quote_chars a)) by done.
    rewrite (getitem_nonneg _ 1 (PyStr.strip SQLMeshParsedFQN.quote_chars b)) by done.
    cbn [mbind Exc_bind].
    by rewrite (getitem_beyond _ 2).
  - rewrite (getitem_nonneg _ 0 (PyStr.strip SQLMeshParsedFQN.quote_chars a)) by done.
    rewrite (getitem_nonneg _ 1 (PyStr.strip SQLMeshParsedFQN.quote_chars b)) by done.
    rewrite (getitem_nonneg _ 2 (PyStr.strip SQLMeshParsedFQN.quote_chars c)) by done.
    done.
Qed.

(** C7: when the dot-split of [fqn] yields exactly three segments [a], [b]
    and [c] (so [fqn] is [a.b.c] and no segment holds a dot), [parse]
    returns the record whose catalog, schema and view name are [a], [b] and
    [c], in this order, each with its leading and trailing single and
    double quotes removed. *)
Theorem parse_three_segments (fqn a b c : string) :
  PyStr.split "." fqn = [a; b; c] →
  fqn = a +:+ "." +:+ b +:+ "." +:+ c ∧
  (PyStr.char_in "." a = false ∧ PyStr.char_in "." b = false ∧
   PyStr.char_in "." c = false) ∧
  SQLMeshParsedFQN.parse fqn =
    Return {| SQLMeshParsedFQN.catalog := PyStr.strip SQLMeshParsedFQN.quote_chars a;
              SQLMeshParsedFQN.schema := PyStr.strip SQLMeshParsedFQN.quote_chars b;
              SQLMeshParsedFQN.view_name := PyStr.strip SQLMeshParsedFQN.quote_chars c |} ∧
  stripped_of SQLMeshParsedFQN.quote_chars a (PyStr.strip SQLMeshParsedFQN.quote_chars a) ∧
  stripped_of SQLMeshParsedFQN.quote_chars b (PyStr.strip SQLMeshParsedFQN.quote_chars b) ∧
  stripped_of SQLMeshParsedFQN.quote_chars c (PyStr.strip SQLMeshParsedFQN.quote_chars c).
Proof.
  intros Hsplit. split; [|split; [|split]].
  - rewrite <- (join_split "." fqn) at 1. by rewrite Hsplit.
  - pose proof (split_pieces "." fqn) as Hpieces. rewrite Hsplit in Hpieces.
    inversion Hpieces as [|? ? Ha Hbc]; subst.
    inversion Hbc as [|? ? Hb Hc]; subst.
    inversion Hc as [|? ? Hc' _]; subst. done.
  - by rewrite parse_unfold, Hsplit.
  - auto using strip_spec.
Qed.

(** The identifier ['a'."b".c] has the catalog [a], the schema [b] and the
    view name [c]. *)
Lemma parse_three_segments_example :
  PyStr.split "." quoted_abc = ["'a'"; String PyStr.dquote "b" +:+ String PyStr.dquote ""; "c"] ∧
  SQLMeshParsedFQN.parse quoted_abc =
    Return {| SQLMeshParsedFQN.catalog := "a";
              SQLMeshParsedFQN.schema := "b";
              SQLMeshParsedFQN.view_name := "c" |}.
Proof.
  split; [reflexivity|].
  exact (proj1 (proj2 (proj2
    (parse_three_segments quoted_abc "'a'"
       (String PyStr.dquote "b" +:+ String PyStr.dquote "") "c" eq_refl)))).
Defined.

(** C1, as the code has it: when the dot-split of [fqn] does not yield
    exactly three segments, then either there are fewer than three and
    [parse] raises [IndexError] (Python's error for the failed subscript,
    not one particular to identifiers), or there are more than three and
    [parse] returns the record built from the first three, leaving the
    others out. *)
Theorem parse_wrong_segment_count (fqn : string) :
  length (PyStr.split "." fqn) ≠ 3%nat →
  ((length (PyStr.split "." fqn) < 3)%nat ∧
   SQLMeshParsedFQN.parse fqn = Raise IndexError) ∨
  (∃ a b c d rest,
     PyStr.split "." fqn = a :: b :: c :: d :: rest ∧
     SQLMeshParsedFQN.parse fqn =
       Return {| SQLMeshParsedFQN.catalog := PyStr.strip SQLMeshParsedFQN.quote_chars a;
                 SQLMeshParsedFQN.schema := PyStr.strip SQLMeshParsedFQN.quote_chars b;
                 SQLMeshParsedFQN.view_name := PyStr.strip SQLMeshParsedFQN.quote_chars c |}).
Proof.
  intros Hlen. rewrite parse_unfold.
  destruct (PyStr.split "." fqn) as [|a [|b [|c [|d rest]]]]; simpl in *.
  - left. split; [lia|done].
  - left. split; [lia|done].
  - left. split; [lia|done].
  - done.
  - right. by exists a, b, c, d, rest.
Qed.

(** [only.two] has two segments, and parsing it raises [IndexError]. *)
Lemma parse_wrong_segment_count_only_two :
  length (PyStr.split "." "only.two") ≠ 3%nat ∧
  ((length (PyStr.split "." "only.two") < 3)%nat ∧
   SQLMeshParsedFQN.parse "only.two" = Raise IndexError).
Proof.
  assert (length (PyStr.split "." "only.two") ≠ 3%nat) as Hlen by (simpl; lia).
  split; [exact Hlen|].
  destruct (parse_wrong_segment_count "only.two" Hlen) as [Hfew|Hmany].
  - exact Hfew.
  - destruct Hmany as (a & b & c & d & rest & Hsplit & _). discriminate Hsplit.
Defined.

(** Extra segments are not refused: [a.b.c.d] has four segments and
    [parse] returns a record, made of the first three. *)
Lemma parse_four_segments_succeeds :
  length (PyStr.split "." "a.b.c.d") = 4%nat ∧
  SQLMeshParsedFQN.parse "a.b.c.d" =
    Return {| SQLMeshParsedFQN.catalog := "a";
              SQLMeshParsedFQN.schema := "b";
              SQLMeshParsedFQN.view_name := "c" |}.
Proof. split; reflexivity. Qed.

(** ** The translator: keys, groups and tags *)

(** C10: the internal flat identifier is the prefix [sqlmesh__] followed by
    the components of the public key path joined with underscores; both
    fail with the parser's error when the name does not parse. *)
Theorem get_asset_key_str_agrees_with_key_name
    (to_table : string → Exc Table.t) (fqn : string) :
  SQLMeshDagsterTranslator.get_asset_key_str to_table fqn =
  (λ components, "sqlmesh__" +:+ PyStr.join "_" components) <$>
    SQLMeshDagsterTranslator.get_asset_key_name to_table fqn.
Proof.
  unfold SQLMeshDagsterTranslator.get_asset_key_str,
    SQLMeshDagsterTranslator.get_asset_key_name.
  by destruct (to_table fqn).
Qed.

(** C9: resolving the dependency built from the key string [s] gives the
    key that dagster builds from the user string [s]. *)
Theorem to_asset_key_round_trip (from_user_string : string → AssetKey) (s : string) :
  IntermediateAssetDep.to_asset_key from_user_string
    (SQLMeshDagsterTranslator.create_asset_dep s) = from_user_string s ∧
  IntermediateAssetDep.to_asset_key from_user_string
    {| IntermediateAssetDep.key := s |} = from_user_string s.
Proof. split; reflexivity. Qed.

(** C5: [create_asset_out] called with [model_key] and [asset_key] alone
    gives a descriptor that is not required, whereas the dataclass
    constructor, when [is_required] is not given, gives one that is,
    whatever the other arguments are. *)
Theorem is_required_defaults (model_key asset_key : string)
    (tags group_name kinds : option PyVal) (kwargs : option (gmap string PyVal)) :
  IntermediateAssetOut.is_required
    (SQLMeshDagsterTranslator.create_asset_out model_key asset_key ∅) = PyBool false ∧
  IntermediateAssetOut.is_required
    (IntermediateAssetOut.init model_key asset_key tags None group_name kinds kwargs)
    = PyBool true.
Proof. split; reflexivity. Qed.

Lemma get_tags_fold (names : list string) (d : gmap string string) (k : string) :
  foldl (λ d k, <[k := ""]> d) d names !! k =
  if bool_decide (k ∈ names) then Some "" else d !! k.
Proof.
  revert d. induction names as [|n names IH]; intros d; cbn [foldl].
  - rewrite bool_decide_eq_false_2; [done|]. apply not_elem_of_nil.
  - rewrite IH. clear IH.
    destruct (decide (k ∈ names)) as [Hin|Hnotin].
    + rewrite !bool_decide_eq_true_2; [done| |done]. by right.
    + rewrite (bool_decide_eq_false_2 (k ∈ names)) by done.
      destruct (decide (k = n)) as [->|Hne].
      * rewrite lookup_insert_eq. rewrite bool_decide_eq_true_2; [done|]. by left.
      * rewrite lookup_insert_ne by done.
        rewrite bool_decide_eq_false_2; [done|].
        rewrite elem_of_cons. intros [Heq|Hin]; [by apply Hne|by apply Hnotin].
Qed.

(** C8: the keys of [get_tags] are exactly the tag names of the model, and
    every key is mapped to the empty string; the tags [a] and [b] give the
    mapping of [a] and of [b] to the empty string. *)
Theorem get_tags_empty_values (context : Context.t) (model : Model.t) :
  dom (SQLMeshDagsterTranslator.get_tags context model)
    = list_to_set (Model.tags model) ∧
  (∀ k, SQLMeshDagsterTranslator.get_tags context model !! k =
        if bool_decide (k ∈ Model.tags model) then Some "" else None) ∧
  SQLMeshDagsterTranslator.get_tags context
    {| Model.fqn := Model.fqn model; Model.tags := ["a"; "b"] |}
    = {[ "a" := ""; "b" := "" ]}.
Proof.
  assert (∀ k, SQLMeshDagsterTranslator.get_tags context model !! k =
               if bool_decide (k ∈ Model.tags model) then Some "" else None) as Hlookup.
  { intros k. unfold SQLMeshDagsterTranslator.get_tags.
    rewrite get_tags_fold. by rewrite lookup_empty. }
  split; [|split].
  - apply set_eq. intros k. rewrite elem_of_dom, Hlookup, elem_of_list_to_set.
    destruct (decide (k ∈ Model.tags model)) as [Hin|Hnotin].
    + rewrite bool_decide_eq_true_2 by done. split; [done|]. by eexists.
    + rewrite bool_decide_eq_false_2 by done. split; [|done].
      intros [v Hv]. discriminate Hv.
  - exact Hlookup.
  - apply map_eq. intros k. unfold SQLMeshDagsterTranslator.get_tags. simpl.
    destruct (decide (k = "a")) as [->|Ha]; [done|].
    destruct (decide (k = "b")) as [->|Hb]; [done|].
    rewrite !lookup_insert_ne by done.
    by rewrite lookup_singleton_ne, lookup_empty by done.
Qed.

(** C6: when the name of the model parses, the key path ends in two
    components [x] and [y], and [get_group_name] returns [x], the one
    before the last, which is the schema (database) of the table
    reference. *)
Theorem get_group_name_second_to_last
    (to_table : string → Exc Table.t) (context : Context.t) (model : Model.t)
    (components : list string) :
  SQLMeshDagsterTranslator.get_asset_key_name to_table (Model.fqn model)
    = Return components →
  ∃ front x y table,
    components = front ++ [x; y] ∧
    SQLMeshDagsterTranslator.get_group_name to_table context model = Return x ∧
    to_table (Model.fqn model) = Return table ∧ x = Table.db table.
Proof.
  unfold SQLMeshDagsterTranslator.get_group_name,
    SQLMeshDagsterTranslator.get_asset_key_name.
  destruct (to_table (Model.fqn model)) as [table|e]; [|done].
  intros [= <-].
  exists [Table.catalog table], (Table.db table), (Table.name table), table.
  repeat split; try done.
Qed.

(** The model [db.main.orders] is in the group [main]. *)
Lemma get_group_name_second_to_last_main :
  SQLMeshDagsterTranslator.get_asset_key_name dotted_to_table "db.main.orders"
    = Return ["db"; "main"; "orders"] ∧
  ∃ front x y table,
    ["db"; "main"; "orders"] = front ++ [x; y] ∧
    SQLMeshDagsterTranslator.get_group_name dotted_to_table
      {| Context.engine_adapter := {| Context.dialect := "duckdb" |} |}
      {| Model.fqn := "db.main.orders"; Model.tags := [] |} = Return x ∧
    dotted_to_table "db.main.orders" = Return table ∧ x = Table.db table.
Proof.
  split; [reflexivity|].
  apply (get_group_name_second_to_last dotted_to_table
           {| Context.engine_adapter := {| Context.dialect := "duckdb" |} |}
           {| Model.fqn := "db.main.orders"; Model.tags := [] |}).
  reflexivity.
Defined.

(** ** The internal flat identifier *)

Lemma all_chars_app (p : ascii → bool) (s t : string) :
  PyStr.all_chars p (s +:+ t) = PyStr.all_chars p s && PyStr.all_chars p t.
Proof.
  induction s as [|c s IH]; [done|].
  rewrite app_String. simpl. rewrite IH. by rewrite andb_assoc.
Qed.

Lemma app_inv_head_str (s t u : string) : s +:+ t = s +:+ u → t = u.
Proof.
  induction s as [|c s IH]; [done|].
  rewrite !app_String. intros [= H]. by apply IH.
Qed.

Lemma startswith_app (p s : string) : PyStr.startswith p (p +:+ s) = true.
Proof.
  unfold PyStr.startswith. induction p as [|c p IH]; [by destruct s|].
  rewrite app_String. simpl.
  destruct (ascii_dec c c) as [_|Hne]; [exact IH|by destruct Hne].
Qed.

(** A string is cut in one way only at the first occurrence of a
    character. *)
Lemma cut_at_first_inj (c : ascii) (a a' r r' : string) :
  PyStr.char_in c a = false → PyStr.char_in c a' = false →
  a +:+ String c r = a' +:+ String c r' → a = a' ∧ r = r'.
Proof.
  revert a'. induction a as [|x a IH]; intros [|y a']; simpl.
  - intros _ _. rewrite !app_empty_l. by intros [= ->].
  - intros _ Hy. rewrite app_empty_l, app_String. intros [= -> _].
    by rewrite Ascii.eqb_refl in Hy.
  - intros Hx _. rewrite app_empty_l, app_String. intros [= <- _].
    by rewrite Ascii.eqb_refl in Hx.
  - intros Hx Hy. rewrite !app_String. intros [= -> Hrest].
    destruct (Ascii.eqb c y); [done|].
    destruct (IH a' Hx Hy Hrest) as [-> ->]. done.
Qed.

(** What [get_asset_key_str] returns for a name that parses: the prefix,
    then the three components with an underscore between them.  The result
    is never empty and starts with the prefix; its characters are letters,
    digits and underscores exactly when those of the three components
    are, since the components are copied as they are. *)
Lemma get_asset_key_str_shape (to_table : string → Exc Table.t) (fqn : string)
    (table : Table.t) :
  to_table fqn = Return table →
  ∃ s,
    SQLMeshDagsterTranslator.get_asset_key_str to_table fqn = Return s ∧
    s = "sqlmesh__" +:+ Table.catalog table +:+ "_" +:+ Table.db table +:+ "_"
          +:+ Table.name table ∧
    s ≠ "" ∧
    PyStr.startswith "sqlmesh__" s = true ∧
    (PyStr.all_chars is_alnum_or_underscore s = true ↔
     PyStr.all_chars is_alnum_or_underscore (Table.catalog table) = true ∧
     PyStr.all_chars is_alnum_or_underscore (Table.db table) = true ∧
     PyStr.all_chars is_alnum_or_underscore (Table.name table) = true).
Proof.
  intros Htable. eexists. split; [|split; [reflexivity|split; [|split]]].
  - unfold SQLMeshDagsterTranslator.get_asset_key_str. by rewrite Htable.
  - done.
  - apply startswith_app.
  - rewrite !all_chars_app.
    change (PyStr.all_chars is_alnum_or_underscore "sqlmesh__") with true.
    change (PyStr.all_chars is_alnum_or_underscore "_") with true.
    rewrite !andb_true_iff. tauto.
Qed.

(** C2 at the name ["my-db"."main"."orders"]: the hyphen of the catalog is
    copied into the internal identifier, which is therefore not made of
    letters, digits and underscores only. *)
Theorem get_asset_key_str_keeps_hyphen :
  dotted_to_table quoted_my_db =
    Return {| Table.catalog := "my-db"; Table.db := "main"; Table.name := "orders" |} ∧
  SQLMeshDagsterTranslator.get_asset_key_str dotted_to_table quoted_my_db
    = Return "sqlmesh__my-db_main_orders" ∧
  PyStr.all_chars is_alnum_or_underscore "sqlmesh__my-db_main_orders" = false.
Proof. repeat split; vm_compute; reflexivity. Qed.

(** C3, as the code has it: two names whose table references have no
    underscore in catalog and schema get the same internal identifier
    exactly when the references are the same triple. *)
Theorem get_asset_key_str_injective (to_table : string → Exc Table.t)
    (fqn1 fqn2 : string) (t1 t2 : Table.t) :
  to_table fqn1 = Return t1 →
  to_table fqn2 = Return t2 →
  PyStr.char_in "_" (Table.catalog t1) = false →
  PyStr.char_in "_" (Table.db t1) = false →
  PyStr.char_in "_" (Table.catalog t2) = false →
  PyStr.char_in "_" (Table.db t2) = false →
  SQLMeshDagsterTranslator.get_asset_key_str to_table fqn1 =
    SQLMeshDagsterTranslator.get_asset_key_str to_table fqn2
  ↔ t1 = t2.
Proof.
  intros H1 H2 Hc1 Hd1 Hc2 Hd2.
  unfold SQLMeshDagsterTranslator.get_asset_key_str. rewrite H1, H2.
  cbn [mbind Exc_bind mret Exc_ret].
  split; [|by intros ->].
  intros [= Hkey]. apply app_inv_head_str in Hkey.
  destruct t1 as [c1 d1 n1], t2 as [c2 d2 n2]; simpl in *.
  change (c1 +:+ String "_" (d1 +:+ String "_" n1) =
          c2 +:+ String "_" (d2 +:+ String "_" n2)) in Hkey.
  apply cut_at_first_inj in Hkey as [-> Hkey]; [|done..].
  apply cut_at_first_inj in Hkey as [-> ->]; done.
Qed.

(** [db.main.orders] and [db.main.order_items] have different internal
    identifiers. *)
Lemma get_asset_key_str_injective_orders_items :
  let orders := {| Table.catalog := "db"; Table.db := "main"; Table.name := "orders" |} in
  let items := {| Table.catalog := "db"; Table.db := "main"; Table.name := "order_items" |} in
  dotted_to_table "db.main.orders" = Return orders ∧
  dotted_to_table "db.main.order_items" = Return items ∧
  (SQLMeshDagsterTranslator.get_asset_key_str dotted_to_table "db.main.orders" =
     SQLMeshDagsterTranslator.get_asset_key_str dotted_to_table "db.main.order_items"
   ↔ orders = items).
Proof.
  intros orders items.
  split; [reflexivity|]. split; [reflexivity|].
  apply (get_asset_key_str_injective dotted_to_table
           "db.main.orders" "db.main.order_items" orders items); reflexivity.
Defined.

(** An underscore inside a component collides with the separator: the
    triples [(a_b, c, d)] and [(a, b_c, d)] are made of letters and
    underscores and differ, and both are flattened to [sqlmesh__a_b_c_d]. *)
Lemma get_asset_key_str_collision :
  let t1 := {| Table.catalog := "a_b"; Table.db := "c"; Table.name := "d" |} in
  let t2 := {| Table.catalog := "a"; Table.db := "b_c"; Table.name := "d" |} in
  dotted_to_table "a_b.c.d" = Return t1 ∧
  dotted_to_table "a.b_c.d" = Return t2 ∧
  t1 ≠ t2 ∧
  forallb (PyStr.all_chars is_alnum_or_underscore)
    [Table.catalog t1; Table.db t1; Table.name t1;
     Table.catalog t2; Table.db t2; Table.name t2] = true ∧
  SQLMeshDagsterTranslator.get_asset_key_str dotted_to_table "a_b.c.d"
    = Return "sqlmesh__a_b_c_d" ∧
  SQLMeshDagsterTranslator.get_asset_key_str dotted_to_table "a.b_c.d"
    = Return "sqlmesh__a_b_c_d".
Proof. repeat split; try reflexivity. discriminate. Qed.

(** ** Resolving an output descriptor *)

Lemma takes_keyword_in_parameters (sig : Signature) (k : string) :
  takes_keyword sig k = true → in_parameters k sig = true.
Proof.
  unfold takes_keyword, in_parameters. rewrite existsb_exists.
  intros [[n kind] [Hin Hp]]. simpl in Hp.
  apply andb_true_iff in Hp as [Hn _]. apply bool_decide_eq_true in Hn as ->.
  apply bool_decide_eq_true. apply list_elem_of_fmap.
  exists (k, kind). split; [done|]. by apply list_elem_of_In.
Qed.

(** A keyword that no parameter takes makes the call fail, wherever it
    stands among the arguments, when the signature has no [**kwargs]. *)
Lemma bind_keywords_rejects (sig : Signature) (k : string) (v : PyVal)
    (before after : list (string * PyVal)) (bound : gmap string PyVal) :
  takes_keyword sig k = false → has_var_keyword sig = false →
  bind_keywords sig (before ++ (k, v) :: after) bound = Raise TypeError.
Proof.
  intros Hk Hvar. revert bound.
  induction before as [|[k' v'] before IH]; intros bound; simpl.
  - rewrite Hk, Hvar. simpl. by case_bool_decide.
  - case_bool_decide; [done|].
    destruct (takes_keyword sig k' || has_var_keyword sig); [apply IH|done].
Qed.

(** A call that binds gives every keyword argument to the callee. *)
Lemma bind_keywords_bound (sig : Signature) (given : list (string * PyVal))
    (bound m : gmap string PyVal) :
  bind_keywords sig given bound = Return m →
  bound ⊆ m ∧ ∀ k v, (k, v) ∈ given → m !! k = Some v.
Proof.
  revert bound. induction given as [|[k v] given IH]; intros bound; simpl.
  - intros [= <-]. split; [done|]. intros k v Hin. by apply elem_of_nil in Hin.
  - case_bool_decide as Hk; [done|].
    destruct (takes_keyword sig k || has_var_keyword sig); [|done].
    intros Hm. destruct (IH _ Hm) as [Hsub Hgiven].
    assert (bound !! k = None) as Hnone.
    { destruct (bound !! k) eqn:E; [|done]. destruct Hk. by eexists. }
    split.
    + etrans; [|exact Hsub]. by apply insert_subseteq.
    + intros k' v' Hin. apply elem_of_cons in Hin as [[= -> ->]|Hin].
      * eapply lookup_weaken; [|exact Hsub]. apply lookup_insert_eq.
      * by apply Hgiven.
Qed.

(** On a dagster whose [AssetOut] has no [kinds] parameter and no
    [**kwargs], [to_asset_out] raises for every descriptor: the keyword
    [kinds] is still part of the call. *)
Lemma to_asset_out_kinds_unsupported (from_user_string : string → AssetKey)
    (sig : Signature) (self : IntermediateAssetOut.t) :
  in_parameters "kinds" sig = false → has_var_keyword sig = false →
  IntermediateAssetOut.to_asset_out from_user_string sig self = Raise TypeError.
Proof.
  intros Hkinds Hvar. unfold IntermediateAssetOut.to_asset_out,
    IntermediateAssetOut.asset_out_call.
  assert (takes_keyword sig "kinds" = false) as Htakes.
  { destruct (takes_keyword sig "kinds") eqn:E; [|done].
    apply takes_keyword_in_parameters in E. congruence. }
  rewrite Hkinds. cbn [negb].
  change ([("key", PyAssetKey (from_user_string (IntermediateAssetOut.asset_key self)));
           ("tags", IntermediateAssetOut.tags self);
           ("is_required", IntermediateAssetOut.is_required self);
           ("group_name", IntermediateAssetOut.group_name self);
           ("kinds", PyNone)] ++ map_to_list (IntermediateAssetOut.kwargs self))
    with ([("key", PyAssetKey (from_user_string (IntermediateAssetOut.asset_key self)));
           ("tags", IntermediateAssetOut.tags self);
           ("is_required", IntermediateAssetOut.is_required self);
           ("group_name", IntermediateAssetOut.group_name self)] ++
          ("kinds", PyNone) :: map_to_list (IntermediateAssetOut.kwargs self)).
  by rewrite bind_keywords_rejects.
Qed.

(** On a dagster whose [AssetOut] has the [kinds] parameter, the output
    that [to_asset_out] returns was built with the stored kinds. *)
Lemma to_asset_out_kinds_supported (from_user_string : string → AssetKey)
    (sig : Signature) (self : IntermediateAssetOut.t) (out : AssetOut) :
  in_parameters "kinds" sig = true →
  IntermediateAssetOut.to_asset_out from_user_string sig self = Return out →
  arguments out !! "kinds" = Some (IntermediateAssetOut.kinds self).
Proof.
  intros Hkinds. unfold IntermediateAssetOut.to_asset_out.
  destruct (bind_keywords sig _ ∅) as [m|e] eqn:Hbind; [|done].
  intros [= <-]. simpl.
  apply bind_keywords_bound in Hbind as [_ Hgiven]. apply Hgiven.
  unfold IntermediateAssetOut.asset_out_call. rewrite Hkinds. cbn [negb].
  apply elem_of_app. left. do 4 right. left.
Qed.

(** C4 on a dagster without [kinds]: for the descriptor that
    [create_asset_out] builds with the kinds [{sqlmesh}], the capability
    test finds the parameter missing and the value is replaced by [None],
    but the keyword [kinds] stays in the call and the call raises
    [TypeError].  On a dagster with [kinds] the same descriptor resolves
    and the stored kinds are passed. *)
Theorem to_asset_out_without_kinds_raises :
  let self := SQLMeshDagsterTranslator.create_asset_out "m" "k"
                {[ "kinds" := PySet {[ "sqlmesh" ]} ]} in
  IntermediateAssetOut.kinds self = PySet {[ "sqlmesh" ]} ∧
  in_parameters "kinds" AssetOut_signature_without_kinds = false ∧
  has_var_keyword AssetOut_signature_without_kinds = false ∧
  ("kinds", PyNone) ∈
    IntermediateAssetOut.asset_out_call slash_from_user_string
      AssetOut_signature_without_kinds self ∧
  IntermediateAssetOut.to_asset_out slash_from_user_string
    AssetOut_signature_without_kinds self = Raise TypeError ∧
  ∃ out,
    IntermediateAssetOut.to_asset_out slash_from_user_string
      AssetOut_signature_with_kinds self = Return out ∧
    arguments out !! "kinds" = Some (PySet {[ "sqlmesh" ]}).
Proof.
  intros self.
  assert (in_parameters "kinds" AssetOut_signature_without_kinds = false) as Hno
    by (vm_compute; reflexivity).
  assert (has_var_keyword AssetOut_signature_without_kinds = false) as Hvar
    by (vm_compute; reflexivity).
  split; [vm_compute; reflexivity|].
  split; [exact Hno|]. split; [exact Hvar|]. split; [|split].
  - unfold IntermediateAssetOut.asset_out_call. rewrite Hno. cbn [negb].
    apply elem_of_app. left. do 4 right. left.
  - by apply to_asset_out_kinds_unsupported.
  - destruct (IntermediateAssetOut.to_asset_out slash_from_user_string
                AssetOut_signature_with_kinds self) as [out|e] eqn:Hout.
    + exists out. split; [done|].
      apply (to_asset_out_kinds_supported slash_from_user_string
               AssetOut_signature_with_kinds self out); [|exact Hout].
      vm_compute; reflexivity.
    + exfalso. vm_compute in Hout. discriminate Hout.
Qed.

(** ** More on the identifier parser *)

Section more_strings.
Implicit Types (s t chars : string) (c sep : ascii).

Lemma length_split sep s : length (PyStr.split sep s) = S (count_char sep s).
Proof.
  induction s as [|c s IH]; [done|]. simpl.
  destruct (Ascii.eqb c sep); simpl; [by rewrite IH|].
  pose proof (split_nonempty sep s).
  destruct (PyStr.split sep s); [done|]. exact IH.
Qed.

Lemma split_without_sep sep s :
  PyStr.char_in sep s = false → PyStr.split sep s = [s].
Proof.
  induction s as [|c s IH]; [done|]. simpl.
  rewrite (Ascii.eqb_sym c sep).
  destruct (Ascii.eqb sep c); [done|]. intros Hs. by rewrite IH.
Qed.

Lemma split_app_sep sep s t :
  PyStr.char_in sep s = false →
  PyStr.split sep (s +:+ String sep t) = s :: PyStr.split sep t.
Proof.
  induction s as [|c s IH]; simpl.
  - intros _. rewrite ?app_empty_l. simpl. by rewrite Ascii.eqb_refl.
  - rewrite ?app_String. simpl. rewrite (Ascii.eqb_sym c sep).
    destruct (Ascii.eqb sep c); [done|]. intros Hs. by rewrite IH.
Qed.

Lemma lstrip_id chars s :
  (∀ c, first_char s = Some c → PyStr.char_in c chars = false) →
  PyStr.lstrip chars s = s.
Proof. destruct s as [|c s]; [done|]. simpl. intros H. by rewrite (H c). Qed.

Lemma rstrip_id chars s :
  (∀ c, last_char s = Some c → PyStr.char_in c chars = false) →
  PyStr.rstrip chars s = s.
Proof.
  induction s as [|c s IH]; [done|]. intros H.
  destruct s as [|d s].
  - simpl. by rewrite (H c).
  - assert (PyStr.rstrip chars (String d s) = String d s) as Hrest.
    { apply IH. intros c' Hc'. by apply H. }
    change (PyStr.rstrip chars (String c (String d s)))
      with (match PyStr.rstrip chars (String d s) with
            | EmptyString =>
                if PyStr.char_in c chars then EmptyString else String c EmptyString
            | kept => String c kept
            end).
    by rewrite Hrest.
Qed.

(** Stripping twice is stripping once. *)
Lemma strip_idem chars s :
  PyStr.strip chars (PyStr.strip chars s) = PyStr.strip chars s.
Proof.
  destruct (strip_spec chars s) as [_ [Hfirst Hlast]].
  unfold PyStr.strip at 1. rewrite lstrip_id by exact Hfirst.
  by apply rstrip_id.
Qed.

Lemma char_in_lstrip sep chars s :
  PyStr.char_in sep s = false → PyStr.char_in sep (PyStr.lstrip chars s) = false.
Proof.
  induction s as [|c s IH]; [done|]. simpl.
  destruct (PyStr.char_in c chars); [|done].
  destruct (Ascii.eqb sep c); [done|]. exact IH.
Qed.

Lemma char_in_rstrip sep chars s :
  PyStr.char_in sep s = false → PyStr.char_in sep (PyStr.rstrip chars s) = false.
Proof.
  induction s as [|c s IH]; [done|]. simpl.
  destruct (Ascii.eqb sep c) eqn:Hc; [done|]. intros Hs.
  specialize (IH Hs).
  destruct (PyStr.rstrip chars s) as [|d kept].
  - destruct (PyStr.char_in c chars); [done|]. simpl. by rewrite Hc.
  - simpl. rewrite Hc. exact IH.
Qed.

Lemma char_in_strip sep chars s :
  PyStr.char_in sep s = false → PyStr.char_in sep (PyStr.strip chars s) = false.
Proof. intros Hs. by apply char_in_rstrip, char_in_lstrip. Qed.
End more_strings.

(** The segments that [parse] reads are free of dots. *)
Lemma parse_segments (fqn : string) (r : SQLMeshParsedFQN.t) :
  SQLMeshParsedFQN.parse fqn = Return r →
  ∃ a b c rest,
    PyStr.split "." fqn = a :: b :: c :: rest ∧
    PyStr.char_in "." a = false ∧ PyStr.char_in "." b = false ∧
    PyStr.char_in "." c = false ∧
    r = {| SQLMeshParsedFQN.catalog := PyStr.strip SQLMeshParsedFQN.quote_chars a;
           SQLMeshParsedFQN.schema := PyStr.strip SQLMeshParsedFQN.quote_chars b;
           SQLMeshParsedFQN.view_name := PyStr.strip SQLMeshParsedFQN.quote_chars c |}.
Proof.
  rewrite parse_unfold. pose proof (split_pieces "." fqn) as Hpieces.
  destruct (PyStr.split "." fqn) as [|a [|b [|c rest]]]; try done.
  intros [= <-]. exists a, b, c, rest.
  inversion Hpieces as [|? ? Ha Hbc]; subst.
  inversion Hbc as [|? ? Hb Hc]; subst.
  inversion Hc as [|? ? Hc' _]; subst. done.
Qed.

(** [parse] returns a record exactly when the name has at least two dots;
    with fewer, the empty name included, it raises [IndexError]. *)
Theorem parse_succeeds_iff_two_dots (fqn : string) :
  ((∃ r, SQLMeshParsedFQN.parse fqn = Return r) ↔ (2 ≤ count_char "." fqn)%nat) ∧
  (SQLMeshParsedFQN.parse fqn = Raise IndexError ↔ (count_char "." fqn < 2)%nat).
Proof.
  pose proof (length_split "." fqn) as Hlen. rewrite parse_unfold.
  destruct (PyStr.split "." fqn) as [|a [|b [|c rest]]]; simpl in Hlen.
  - lia.
  - split; (split; [try by intros [? ?]|]); try done; try lia.
  - split; (split; [try by intros [? ?]|]); try done; try lia.
  - split; split; try done; try lia. by eexists.
Qed.

(** [SQLMeshModelDep.parse_fqn] writes a record that reads back as itself:
    joining its three components with dots and parsing the result gives
    the same record.  So the components hold no dot and no outer quote,
    also when the name had more than three segments. *)
Theorem parse_fqn_reparse (dep : SQLMeshModelDep.t) (r : SQLMeshParsedFQN.t) :
  SQLMeshModelDep.parse_fqn dep = Return r →
  SQLMeshModelDep.parse_fqn
    {| SQLMeshModelDep.fqn :=
         SQLMeshParsedFQN.catalog r +:+ "." +:+ SQLMeshParsedFQN.schema r +:+ "."
           +:+ SQLMeshParsedFQN.view_name r;
       SQLMeshModelDep.model := None |} = Return r.
Proof.
  unfold SQLMeshModelDep.parse_fqn. cbn [SQLMeshModelDep.fqn].
  intros (a & b & c & rest & _ & Ha & Hb & Hc & ->)%parse_segments.
  cbn [SQLMeshParsedFQN.catalog SQLMeshParsedFQN.schema SQLMeshParsedFQN.view_name].
  rewrite parse_unfold.
  change (?x +:+ "." +:+ ?y +:+ "." +:+ ?z)
    with (x +:+ String "." (y +:+ String "." z)).
  rewrite split_app_sep by by apply char_in_strip.
  rewrite split_app_sep by by apply char_in_strip.
  rewrite split_without_sep by by apply char_in_strip.
  by rewrite !strip_idem.
Qed.

(** The name [a.b.c.d], cut down to [a.b.c] by parsing, reads back. *)
Lemma parse_fqn_reparse_four :
  let r := {| SQLMeshParsedFQN.catalog := "a"; SQLMeshParsedFQN.schema := "b";
              SQLMeshParsedFQN.view_name := "c" |} in
  SQLMeshModelDep.parse_fqn {| SQLMeshModelDep.fqn := "a.b.c.d";
                               SQLMeshModelDep.model := None |} = Return r ∧
  SQLMeshModelDep.parse_fqn {| SQLMeshModelDep.fqn := "a.b.c";
                               SQLMeshModelDep.model := None |} = Return r.
Proof.
  intros r. split; [reflexivity|].
  exact (parse_fqn_reparse {| SQLMeshModelDep.fqn := "a.b.c.d";
                              SQLMeshModelDep.model := None |} r eq_refl).
Defined.

(** Only the outer quotes go: a component that [parse] returns has no dot
    and neither begins nor ends with a quote, and every quote that is
    inside the segment, between other characters, is kept (the segment is
    the component with quotes before and after it). *)
Theorem parse_components_clean (fqn : string) (r : SQLMeshParsedFQN.t) :
  SQLMeshParsedFQN.parse fqn = Return r →
  Forall (λ component,
            PyStr.char_in "." component = false ∧
            (∀ q, first_char component = Some q →
                  PyStr.char_in q SQLMeshParsedFQN.quote_chars = false) ∧
            (∀ q, last_char component = Some q →
                  PyStr.char_in q SQLMeshParsedFQN.quote_chars = false) ∧
            ∃ segment, segment ∈ PyStr.split "." fqn ∧
                       stripped_of SQLMeshParsedFQN.quote_chars segment component)
    [SQLMeshParsedFQN.catalog r; SQLMeshParsedFQN.schema r;
     SQLMeshParsedFQN.view_name r].
Proof.
  intros (a & b & c & rest & Hsplit & Ha & Hb & Hc & ->)%parse_segments.
  cbn [SQLMeshParsedFQN.catalog SQLMeshParsedFQN.schema SQLMeshParsedFQN.view_name].
  rewrite Hsplit.
  assert (∀ seg, PyStr.char_in "." seg = false → seg ∈ a :: b :: c :: rest →
            PyStr.char_in "." (PyStr.strip SQLMeshParsedFQN.quote_chars seg) = false ∧
            (∀ q, first_char (PyStr.strip SQLMeshParsedFQN.quote_chars seg) = Some q →
                  PyStr.char_in q SQLMeshParsedFQN.quote_chars = false) ∧
            (∀ q, last_char (PyStr.strip SQLMeshParsedFQN.quote_chars seg) = Some q →
                  PyStr.char_in q SQLMeshParsedFQN.quote_chars = false) ∧
            ∃ segment, segment ∈ a :: b :: c :: rest ∧
              stripped_of SQLMeshParsedFQN.quote_chars segment
                (PyStr.strip SQLMeshParsedFQN.quote_chars seg)) as Hclean.
  { intros seg Hdot Hin.
    pose proof (strip_spec SQLMeshParsedFQN.quote_chars seg) as Hspec.
    split; [by apply char_in_strip|].
    split; [apply Hspec|]. split; [apply Hspec|]. by exists seg. }
  constructor; [apply Hclean; [done|by left]|].
  constructor; [apply Hclean; [done|right; by left]|].
  constructor; [apply Hclean; [done|do 2 right; by left]|].
  constructor.
Qed.

(** The components of ['a'."b".c] are clean. *)
Lemma parse_components_clean_quoted :
  SQLMeshParsedFQN.parse quoted_abc =
    Return {| SQLMeshParsedFQN.catalog := "a"; SQLMeshParsedFQN.schema := "b";
              SQLMeshParsedFQN.view_name := "c" |} ∧
  Forall (λ component,
            PyStr.char_in "." component = false ∧
            (∀ q, first_char component = Some q →
                  PyStr.char_in q SQLMeshParsedFQN.quote_chars = false) ∧
            (∀ q, last_char component = Some q →
                  PyStr.char_in q SQLMeshParsedFQN.quote_chars = false) ∧
            ∃ segment, segment ∈ PyStr.split "." quoted_abc ∧
                       stripped_of SQLMeshParsedFQN.quote_chars segment component)
    ["a"; "b"; "c"].
Proof.
  split; [reflexivity|].
  exact (parse_components_clean quoted_abc
           {| SQLMeshParsedFQN.catalog := "a"; SQLMeshParsedFQN.schema := "b";
              SQLMeshParsedFQN.view_name := "c" |} eq_refl).
Defined.

(** ** More on resolving an output descriptor *)


Lemma bind_keywords_Return (sig : Signature) (given : list (string * PyVal))
    (bound m : gmap string PyVal) :
  bind_keywords sig given bound = Return m →
  NoDup given.*1 ∧
  Forall (λ k, bound !! k = None ∧ accepts sig k = true) given.*1 ∧
  m = list_to_map given ∪ bound.
Proof.
  revert bound. induction given as [|[k v] given IH]; intros bound.
  - simpl. intros [= <-]. split; [constructor|]. split; [constructor|].
    by rewrite (left_id_L ∅ (∪)).
  - cbn [bind_keywords]. case_bool_decide as Hbound; [done|].
    destruct (takes_keyword sig k || has_var_keyword sig) eqn:Hacc; [|done].
    intros (Hnodup & Hall & ->)%IH.
    assert (bound !! k = None) as Hfree.
    { destruct (bound !! k) eqn:E; [|done]. destruct Hbound. by eexists. }
    assert (k ∉ given.*1) as Hk.
    { intros Hin. rewrite Forall_forall in Hall.
      destruct (Hall k Hin) as [Hins _]. by rewrite lookup_insert_eq in Hins. }
    split; [|split].
    + cbn [fmap list_fmap fst]. by apply NoDup_cons.
    + cbn [fmap list_fmap fst]. apply Forall_cons. split; [done|].
      apply Forall_forall. intros k' Hk'.
      rewrite Forall_forall in Hall. destruct (Hall k' Hk') as [Hfree' Hacc'].
      split; [|done].
      destruct (decide (k = k')) as [<-|Hne]; [done|].
      by rewrite lookup_insert_ne in Hfree'.
    + cbn [list_to_map foldr]. simpl.
      rewrite <- insert_union_l. rewrite <- insert_union_r; [done|].
      by apply not_elem_of_list_to_map_1.
Qed.

Lemma bind_keywords_Raise (sig : Signature) (given : list (string * PyVal))
    (bound : gmap string PyVal) (e : PyError) :
  bind_keywords sig given bound = Raise e → e = TypeError.
Proof.
  revert bound. induction given as [|[k v] given IH]; intros bound; [done|].
  cbn [bind_keywords]. case_bool_decide; [by intros [= <-]|].
  destruct (takes_keyword sig k || has_var_keyword sig); [apply IH|by intros [= <-]].
Qed.

(** The keywords of the call in [to_asset_out]: the five that are written
    out, then the keys of [kwargs]. *)
Lemma asset_out_call_keywords (from_user_string : string → AssetKey)
    (sig : Signature) (self : IntermediateAssetOut.t) :
  (IntermediateAssetOut.asset_out_call from_user_string sig self).*1 =
  explicit_keywords ++ (map_to_list (IntermediateAssetOut.kwargs self)).*1.
Proof. unfold IntermediateAssetOut.asset_out_call. by rewrite fmap_app. Qed.


Lemma to_asset_out_Return (from_user_string : string → AssetKey)
    (sig : Signature) (self : IntermediateAssetOut.t) (out : AssetOut) :
  IntermediateAssetOut.to_asset_out from_user_string sig self = Return out →
  call_fits sig self ∧
  arguments out =
    list_to_map (IntermediateAssetOut.asset_out_call from_user_string sig self).
Proof.
  unfold IntermediateAssetOut.to_asset_out.
  destruct (bind_keywords sig _ ∅) as [m|e] eqn:Hbind; [|done].
  intros [= <-]. cbn [arguments].
  apply bind_keywords_Return in Hbind as (Hnodup & Hall & ->).
  rewrite (right_id_L ∅ (∪)). split; [|done].
  rewrite asset_out_call_keywords in Hnodup, Hall.
  apply NoDup_app in Hnodup as (_ & Hdisjoint & _).
  apply Forall_app in Hall as [Hexplicit Hkwargs].
  split.
  - eapply Forall_impl; [exact Hexplicit|]. by intros k [_ ?].
  - intros k [v Hk]. rewrite Forall_forall in Hkwargs.
    assert (k ∈ (map_to_list (IntermediateAssetOut.kwargs self)).*1) as Hin.
    { apply list_elem_of_fmap. exists (k, v). split; [done|].
      by apply elem_of_map_to_list. }
    split; [by apply Hkwargs|]. intros Hex. by apply (Hdisjoint k).
Qed.


Lemma to_asset_out_Raise (from_user_string : string → AssetKey)
    (sig : Signature) (self : IntermediateAssetOut.t) (e : PyError) :
  IntermediateAssetOut.to_asset_out from_user_string sig self = Raise e →
  e = TypeError.
Proof.
  unfold IntermediateAssetOut.to_asset_out.
  destruct (bind_keywords sig _ ∅) as [m|e'] eqn:Hbind; [done|].
  intros [= <-]. by eapply bind_keywords_Raise.
Qed.

(** The arguments that the call in [to_asset_out] hands over, as a
    dictionary: [kwargs], with the five keywords that are written out put
    on top. *)
Lemma asset_out_call_map (from_user_string : string → AssetKey)
    (sig : Signature) (self : IntermediateAssetOut.t) :
  list_to_map (IntermediateAssetOut.asset_out_call from_user_string sig self) =
  <["key" := PyAssetKey (from_user_string (IntermediateAssetOut.asset_key self))]>
    (<["tags" := IntermediateAssetOut.tags self]>
      (<["is_required" := IntermediateAssetOut.is_required self]>
        (<["group_name" := IntermediateAssetOut.group_name self]>
          (<["kinds" := if in_parameters "kinds" sig
                        then IntermediateAssetOut.kinds self else PyNone]>
            (IntermediateAssetOut.kwargs self))))).
Proof.
  unfold IntermediateAssetOut.asset_out_call.
  rewrite list_to_map_app, list_to_map_to_list.
  cbn [list_to_map foldr]. simpl.
  rewrite <- !insert_union_l, (left_id_L ∅ (∪)).
  by destruct (in_parameters "kinds" sig).
Qed.

Lemma create_asset_out_kwargs (model_key asset_key : string)
    (kwargs : gmap string PyVal) (k : string) :
  IntermediateAssetOut.kwargs
    (SQLMeshDagsterTranslator.create_asset_out model_key asset_key kwargs) !! k =
  if bool_decide (k ∈ popped_keywords) then None else kwargs !! k.
Proof.
  unfold SQLMeshDagsterTranslator.create_asset_out, dict_pop, popped_keywords.
  cbn [IntermediateAssetOut.init IntermediateAssetOut.kwargs default from_option id].
  destruct (decide (k = "is_required")) as [->|H1]; [by rewrite lookup_delete_eq|].
  rewrite lookup_delete_ne by done.
  destruct (decide (k = "group_name")) as [->|H2]; [by rewrite lookup_delete_eq|].
  rewrite lookup_delete_ne by done.
  destruct (decide (k = "tags")) as [->|H3]; [by rewrite lookup_delete_eq|].
  rewrite lookup_delete_ne by done.
  destruct (decide (k = "kinds")) as [->|H4]; [by rewrite lookup_delete_eq|].
  rewrite lookup_delete_ne by done.
  rewrite bool_decide_eq_false_2; [done|].
  rewrite !elem_of_cons, elem_of_nil. intros [?|[?|[?|[?|[]]]]]; congruence.
Qed.


(** The output that [to_asset_out] returns was built with the key that
    dagster reads from [asset_key], with the stored tags, required flag
    and group name, with the stored kinds when [AssetOut] has the
    parameter and with [None] when it has not, and with every entry of
    [kwargs] under its own name; [model_key] is not handed over. *)
Theorem to_asset_out_arguments (from_user_string : string → AssetKey)
    (sig : Signature) (self : IntermediateAssetOut.t) (out : AssetOut) :
  IntermediateAssetOut.to_asset_out from_user_string sig self = Return out →
  arguments out !! "key" =
    Some (PyAssetKey (from_user_string (IntermediateAssetOut.asset_key self))) ∧
  arguments out !! "tags" = Some (IntermediateAssetOut.tags self) ∧
  arguments out !! "is_required" = Some (IntermediateAssetOut.is_required self) ∧
  arguments out !! "group_name" = Some (IntermediateAssetOut.group_name self) ∧
  arguments out !! "kinds" =
    Some (if in_parameters "kinds" sig then IntermediateAssetOut.kinds self else PyNone) ∧
  ∀ k, k ∉ explicit_keywords →
       arguments out !! k = IntermediateAssetOut.kwargs self !! k.
Proof.
  intros [_ ->]%to_asset_out_Return. rewrite asset_out_call_map.
  repeat split.
  - by rewrite lookup_insert_eq.
  - rewrite lookup_insert_ne by done. by rewrite lookup_insert_eq.
  - rewrite !lookup_insert_ne by done. by rewrite lookup_insert_eq.
  - rewrite !lookup_insert_ne by done. by rewrite lookup_insert_eq.
  - rewrite !lookup_insert_ne by done. by rewrite lookup_insert_eq.
  - intros k Hk. unfold explicit_keywords in Hk.
    rewrite !lookup_insert_ne; [done|intros <-; apply Hk..].
    + do 4 right. by left.
    + do 3 right. by left.
    + do 2 right. by left.
    + right. by left.
    + by left.
Qed.

(** A descriptor with a description among its extra arguments, and its
    output on a dagster whose [AssetOut] collects unknown keywords but has
    no [kinds]: the description arrives, the kinds do not. *)
Lemma to_asset_out_arguments_description :
  let self := IntermediateAssetOut.init "m" "db/main/orders" None None
                (Some (PyStr "main")) (Some (PySet {[ "sqlmesh" ]}))
                (Some {[ "description" := PyStr "orders" ]}) in
  ∃ out,
    IntermediateAssetOut.to_asset_out slash_from_user_string
      AssetOut_signature_kwargs_only self = Return out ∧
    arguments out !! "key" = Some (PyAssetKey {| path := ["db"; "main"; "orders"] |}) ∧
    arguments out !! "tags" = Some PyNone ∧
    arguments out !! "is_required" = Some (PyBool true) ∧
    arguments out !! "group_name" = Some (PyStr "main") ∧
    arguments out !! "kinds" = Some PyNone ∧
    ∀ k, k ∉ explicit_keywords →
         arguments out !! k = ({[ "description" := PyStr "orders" ]} : gmap string PyVal) !! k.
Proof.
  intros self. eexists. split; [vm_compute; reflexivity|].
  apply (to_asset_out_arguments slash_from_user_string
           AssetOut_signature_kwargs_only self).
  vm_compute; reflexivity.
Defined.

(** An explicit keyword of the call that is also a key of [kwargs] is
    given twice, and [to_asset_out] raises [TypeError] on every dagster. *)
Theorem to_asset_out_keyword_twice (from_user_string : string → AssetKey)
    (sig : Signature) (self : IntermediateAssetOut.t) (k : string) :
  k ∈ explicit_keywords →
  is_Some (IntermediateAssetOut.kwargs self !! k) →
  IntermediateAssetOut.to_asset_out from_user_string sig self = Raise TypeError.
Proof.
  intros Hk Hsome.
  destruct (IntermediateAssetOut.to_asset_out from_user_string sig self)
    as [out|e] eqn:Hout.
  - apply to_asset_out_Return in Hout as [[_ Hkwargs] _].
    destruct (Hkwargs k Hsome) as [_ Hnot]. by destruct Hnot.
  - f_equal. by eapply to_asset_out_Raise.
Qed.

(** [create_asset_out] keeps a [key] given among its keyword arguments,
    and the descriptor then fails to resolve. *)
Lemma to_asset_out_keyword_twice_key :
  let self := SQLMeshDagsterTranslator.create_asset_out "m" "db/main/orders"
                {[ "key" := PyStr "other" ]} in
  "key" ∈ explicit_keywords ∧
  is_Some (IntermediateAssetOut.kwargs self !! "key") ∧
  IntermediateAssetOut.to_asset_out slash_from_user_string
    AssetOut_signature_with_kinds self = Raise TypeError.
Proof.
  intros self.
  assert ("key" ∈ explicit_keywords) as Hk by (by left).
  assert (is_Some (IntermediateAssetOut.kwargs self !! "key")) as Hsome
    by (vm_compute; by eexists).
  split; [exact Hk|]. split; [exact Hsome|].
  exact (to_asset_out_keyword_twice slash_from_user_string
           AssetOut_signature_with_kinds self "key" Hk Hsome).
Defined.

(** What [create_asset_out] stores: each of [kinds], [tags], [group_name]
    and [is_required] is the keyword argument of that name, or [None]
    ([False] for [is_required]) when it is not given; the two keys are
    stored as they are; and [kwargs] is left with the other keyword
    arguments, unchanged. *)
Theorem create_asset_out_fields (model_key asset_key : string)
    (kwargs : gmap string PyVal) :
  let self := SQLMeshDagsterTranslator.create_asset_out model_key asset_key kwargs in
  IntermediateAssetOut.model_key self = model_key ∧
  IntermediateAssetOut.asset_key self = asset_key ∧
  IntermediateAssetOut.kinds self = default PyNone (kwargs !! "kinds") ∧
  IntermediateAssetOut.tags self = default PyNone (kwargs !! "tags") ∧
  IntermediateAssetOut.group_name self = default PyNone (kwargs !! "group_name") ∧
  IntermediateAssetOut.is_required self =
    default (PyBool false) (kwargs !! "is_required") ∧
  ∀ k, IntermediateAssetOut.kwargs self !! k =
       if bool_decide (k ∈ popped_keywords) then None else kwargs !! k.
Proof.
  intros self. repeat split.
  - unfold self, SQLMeshDagsterTranslator.create_asset_out, dict_pop.
    cbn [IntermediateAssetOut.init IntermediateAssetOut.tags default].
    by rewrite lookup_delete_ne.
  - unfold self, SQLMeshDagsterTranslator.create_asset_out, dict_pop.
    cbn [IntermediateAssetOut.init IntermediateAssetOut.group_name default].
    by rewrite !lookup_delete_ne.
  - unfold self, SQLMeshDagsterTranslator.create_asset_out, dict_pop.
    cbn [IntermediateAssetOut.init IntermediateAssetOut.is_required default].
    by rewrite !lookup_delete_ne.
  - apply create_asset_out_kwargs.
Qed.

(** From [create_asset_out] to [AssetOut]: when the descriptor made from
    the keyword arguments [kwargs] resolves, then [kwargs] had no [key],
    the output has the key read from [asset_key], [is_required] is the
    one given or [False], [tags] and [group_name] are those given or
    [None], [kinds] are those given (or [None]) on a dagster that has the
    parameter and [None] on one that has not, and every other keyword
    argument arrives unchanged. *)
Theorem create_asset_out_resolves (from_user_string : string → AssetKey)
    (sig : Signature) (model_key asset_key : string)
    (kwargs : gmap string PyVal) (out : AssetOut) :
  IntermediateAssetOut.to_asset_out from_user_string sig
    (SQLMeshDagsterTranslator.create_asset_out model_key asset_key kwargs)
    = Return out →
  kwargs !! "key" = None ∧
  arguments out !! "key" = Some (PyAssetKey (from_user_string asset_key)) ∧
  arguments out !! "is_required" =
    Some (default (PyBool false) (kwargs !! "is_required")) ∧
  arguments out !! "tags" = Some (default PyNone (kwargs !! "tags")) ∧
  arguments out !! "group_name" = Some (default PyNone (kwargs !! "group_name")) ∧
  arguments out !! "kinds" =
    Some (if in_parameters "kinds" sig
          then default PyNone (kwargs !! "kinds") else PyNone) ∧
  ∀ k, k ∉ explicit_keywords → arguments out !! k = kwargs !! k.
Proof.
  intros [[_ Hkwargs] Hargs]%to_asset_out_Return.
  rewrite asset_out_call_map in Hargs.
  set (self := SQLMeshDagsterTranslator.create_asset_out model_key asset_key kwargs)
    in *.
  assert (IntermediateAssetOut.tags self = default PyNone (kwargs !! "tags")) as Htags.
  { unfold self, SQLMeshDagsterTranslator.create_asset_out, dict_pop.
    cbn [IntermediateAssetOut.init IntermediateAssetOut.tags default].
    by rewrite lookup_delete_ne. }
  assert (IntermediateAssetOut.group_name self
          = default PyNone (kwargs !! "group_name")) as Hgroup.
  { unfold self, SQLMeshDagsterTranslator.create_asset_out, dict_pop.
    cbn [IntermediateAssetOut.init IntermediateAssetOut.group_name default].
    by rewrite !lookup_delete_ne. }
  assert (IntermediateAssetOut.is_required self
          = default (PyBool false) (kwargs !! "is_required")) as Hrequired.
  { unfold self, SQLMeshDagsterTranslator.create_asset_out, dict_pop.
    cbn [IntermediateAssetOut.init IntermediateAssetOut.is_required default].
    by rewrite !lookup_delete_ne. }
  assert (IntermediateAssetOut.kinds self = default PyNone (kwargs !! "kinds"))
    as Hkinds by done.
  assert (IntermediateAssetOut.asset_key self = asset_key) as Hkey by done.
  rewrite Htags, Hgroup, Hrequired, Hkinds, Hkey in Hargs. rewrite Hargs.
  split; [|repeat split].
  - destruct (kwargs !! "key") as [v|] eqn:E; [|done].
    destruct (Hkwargs "key") as [_ Hnot].
    + unfold self. rewrite create_asset_out_kwargs.
      rewrite bool_decide_eq_false_2; [by rewrite E|].
      unfold popped_keywords. rewrite !elem_of_cons, elem_of_nil.
      intros [?|[?|[?|[?|[]]]]]; discriminate.
    + destruct Hnot. by left.
  - by rewrite lookup_insert_eq.
  - rewrite !lookup_insert_ne by done. by rewrite lookup_insert_eq.
  - rewrite lookup_insert_ne by done. by rewrite lookup_insert_eq.
  - rewrite !lookup_insert_ne by done. by rewrite lookup_insert_eq.
  - rewrite !lookup_insert_ne by done. by rewrite lookup_insert_eq.
  - intros k Hk. unfold explicit_keywords in Hk.
    rewrite !elem_of_cons, elem_of_nil in Hk.
    rewrite !lookup_insert_ne by (intros <-; tauto).
    unfold self. rewrite create_asset_out_kwargs.
    rewrite bool_decide_eq_false_2; [done|].
    unfold popped_keywords. rewrite !elem_of_cons, elem_of_nil. tauto.
Qed.

(** A model with a group, a required flag and a description, resolved on
    a dagster that has [kinds]. *)
Lemma create_asset_out_resolves_orders :
  let kwargs : gmap string PyVal :=
    {[ "group_name" := PyStr "main"; "is_required" := PyBool true;
       "kinds" := PySet {[ "sqlmesh" ]}; "description" := PyStr "orders" ]} in
  ∃ out,
    IntermediateAssetOut.to_asset_out slash_from_user_string
      AssetOut_signature_with_kinds
      (SQLMeshDagsterTranslator.create_asset_out "m" "db/main/orders" kwargs)
      = Return out ∧
    kwargs !! "key" = None ∧
    arguments out !! "key" = Some (PyAssetKey {| path := ["db"; "main"; "orders"] |}) ∧
    arguments out !! "is_required" = Some (PyBool true) ∧
    arguments out !! "tags" = Some PyNone ∧
    arguments out !! "group_name" = Some (PyStr "main") ∧
    arguments out !! "kinds" = Some (PySet {[ "sqlmesh" ]}) ∧
    ∀ k, k ∉ explicit_keywords → arguments out !! k = kwargs !! k.
Proof.
  intros kwargs. eexists. split; [vm_compute; reflexivity|].
  apply (create_asset_out_resolves slash_from_user_string
           AssetOut_signature_with_kinds "m" "db/main/orders" kwargs).
  vm_compute; reflexivity.
Defined.

(** ** More on the translator *)

(** The translator raises what the table parser raises and nothing else:
    each of the four methods that parse a name fails exactly when the
    parser fails, with the parser's error.  In particular the subscript
    [path[-2]] of [get_group_name] is never out of range. *)
Theorem translator_raises_parser_error (to_table : string → Exc Table.t)
    (context : Context.t) (model : Model.t) (e : PyError) :
  (SQLMeshDagsterTranslator.get_asset_key_name to_table (Model.fqn model) = Raise e
   ↔ to_table (Model.fqn model) = Raise e) ∧
  (SQLMeshDagsterTranslator.get_asset_key to_table context (Model.fqn model) = Raise e
   ↔ to_table (Model.fqn model) = Raise e) ∧
  (SQLMeshDagsterTranslator.get_group_name to_table context model = Raise e
   ↔ to_table (Model.fqn model) = Raise e) ∧
  (SQLMeshDagsterTranslator.get_asset_key_str to_table (Model.fqn model) = Raise e
   ↔ to_table (Model.fqn model) = Raise e).
Proof.
  unfold SQLMeshDagsterTranslator.get_asset_key,
    SQLMeshDagsterTranslator.get_group_name,
    SQLMeshDagsterTranslator.get_asset_key_str,
    SQLMeshDagsterTranslator.get_asset_key_name.
  destruct (to_table (Model.fqn model)) as [table|e'];
    cbn [mbind Exc_bind mret Exc_ret].
  - change (getitem [Table.catalog table; Table.db table; Table.name table] (-2))
      with (Return (Table.db table)).
    repeat split; intros H; discriminate H.
  - repeat split; intros [= ->]; reflexivity.
Qed.

(** The asset key of a name that parses has exactly three components,
    catalog, schema and name, whatever the context; the key path, the
    internal identifier and the group of a model of that name are read
    from it. *)
Theorem get_asset_key_path (to_table : string → Exc Table.t)
    (context : Context.t) (model : Model.t) (k : AssetKey) :
  SQLMeshDagsterTranslator.get_asset_key to_table context (Model.fqn model) = Return k →
  length (path k) = 3%nat ∧
  SQLMeshDagsterTranslator.get_asset_key_name to_table (Model.fqn model)
    = Return (path k) ∧
  SQLMeshDagsterTranslator.get_asset_key_str to_table (Model.fqn model)
    = Return ("sqlmesh__" +:+ PyStr.join "_" (path k)) ∧
  SQLMeshDagsterTranslator.get_group_name to_table context model
    = getitem (path k) 1 ∧
  ∃ table, to_table (Model.fqn model) = Return table ∧
           path k = [Table.catalog table; Table.db table; Table.name table].
Proof.
  unfold SQLMeshDagsterTranslator.get_asset_key,
    SQLMeshDagsterTranslator.get_group_name,
    SQLMeshDagsterTranslator.get_asset_key_str,
    SQLMeshDagsterTranslator.get_asset_key_name.
  destruct (to_table (Model.fqn model)) as [table|e]; [|done].
  intros [= <-]. repeat split. by exists table.
Qed.

(** A two-part name has an empty catalog in its key. *)
Lemma get_asset_key_path_two_parts :
  let context := {| Context.engine_adapter := {| Context.dialect := "duckdb" |} |} in
  let model := {| Model.fqn := "main.orders"; Model.tags := [] |} in
  let k := {| path := [""; "main"; "orders"] |} in
  SQLMeshDagsterTranslator.get_asset_key dotted_to_table context "main.orders" = Return k ∧
  length (path k) = 3%nat ∧
  SQLMeshDagsterTranslator.get_asset_key_name dotted_to_table "main.orders"
    = Return (path k) ∧
  SQLMeshDagsterTranslator.get_asset_key_str dotted_to_table "main.orders"
    = Return "sqlmesh___main_orders" ∧
  SQLMeshDagsterTranslator.get_group_name dotted_to_table context model
    = Return "main" ∧
  ∃ table, dotted_to_table "main.orders" = Return table ∧
           path k = [Table.catalog table; Table.db table; Table.name table].
Proof.
  intros context model k. split; [reflexivity|].
  exact (get_asset_key_path dotted_to_table context model k eq_refl).
Defined.

(** [get_tags] depends on the set of tag names only: two models with the
    same names, in any order and any number of times, get the same
    tags, whatever the contexts. *)
Theorem get_tags_same_names (context1 context2 : Context.t) (model1 model2 : Model.t) :
  (∀ k, k ∈ Model.tags model1 ↔ k ∈ Model.tags model2) →
  SQLMeshDagsterTranslator.get_tags context1 model1 =
  SQLMeshDagsterTranslator.get_tags context2 model2.
Proof.
  intros Hsame. apply map_eq. intros k.
  unfold SQLMeshDagsterTranslator.get_tags. rewrite !get_tags_fold.
  destruct (decide (k ∈ Model.tags model1)) as [Hin|Hnotin].
  - rewrite !bool_decide_eq_true_2; [done|by apply Hsame|done].
  - rewrite !bool_decide_eq_false_2; [done| |done]. by rewrite <- Hsame.
Qed.

(** A tag that is given twice counts once. *)
Lemma get_tags_same_names_twice :
  let context := {| Context.engine_adapter := {| Context.dialect := "duckdb" |} |} in
  let model1 := {| Model.fqn := "a.b.c"; Model.tags := ["x"; "y"; "x"] |} in
  let model2 := {| Model.fqn := "a.b.d"; Model.tags := ["y"; "x"] |} in
  (∀ k, k ∈ Model.tags model1 ↔ k ∈ Model.tags model2) ∧
  SQLMeshDagsterTranslator.get_tags context model1 =
  SQLMeshDagsterTranslator.get_tags context model2.
Proof.
  intros context model1 model2.
  assert (∀ k, k ∈ Model.tags model1 ↔ k ∈ Model.tags model2) as Hsame.
  { intros k. simpl. rewrite !elem_of_cons, elem_of_nil. tauto. }
  split; [exact Hsame|].
  exact (get_tags_same_names context context model1 model2 Hsame).
Defined.

(** ** The multi-asset options *)

Section mapM_Exc.
Context {A B : Type} (f : A → Exc B).

Lemma mapM_Return (l : list A) (ys : list B) :
  mapM f l = Return ys → Forall2 (λ x y, f x = Return y) l ys.
Proof.
  revert ys. induction l as [|x l IH]; intros ys; simpl.
  - intros [= <-]. constructor.
  - destruct (f x) as [y|e] eqn:Hx; [|done]. cbn [mbind Exc_bind].
    destruct (mapM f l) as [k|e] eqn:Hl; [|done]. cbn [mbind Exc_bind].
    intros [= <-]. constructor; [done|]. by apply IH.
Qed.

Lemma mapM_Raise (l : list A) (e : PyError) :
  mapM f l = Raise e → ∃ x, x ∈ l ∧ f x = Raise e.
Proof.
  induction l as [|x l IH]; simpl; [done|].
  destruct (f x) as [y|e'] eqn:Hx; cbn [mbind Exc_bind].
  - destruct (mapM f l) as [k|e'] eqn:Hl; cbn [mbind Exc_bind]; [done|].
    intros [= ->]. destruct IH as [x' [Hin Hx']]; [done|].
    exists x'. split; [by right|done].
  - intros [= ->]. exists x. split; [by left|done].
Qed.

Lemma mapM_all_Return (l : list A) :
  (∀ x, x ∈ l → ∃ y, f x = Return y) → ∃ ys, mapM f l = Return ys.
Proof.
  intros Hall. destruct (mapM f l) as [ys|e] eqn:Hl; [by eexists|].
  apply mapM_Raise in Hl as [x [Hin Hx]].
  destruct (Hall x Hin) as [y Hy]. congruence.
Qed.
End mapM_Exc.

Lemma size_list_to_set_le `{Countable T} (l : list T) :
  (size (list_to_set l : gset T) ≤ length l)%nat.
Proof.
  induction l as [|x l IH].
  - by rewrite list_to_set_nil, size_empty.
  - rewrite list_to_set_cons, length_cons, size_union_alt, size_singleton.
    assert (size (list_to_set l ∖ {[x]} : gset T) ≤ size (list_to_set l : gset T))%nat
      by (apply subseteq_size; intros y [Hy _]%elem_of_difference; exact Hy).
    lia.
Qed.

Section options.
Context {O D : Type} `{!ConvertibleToAssetOut O, !ConvertibleToAssetKey D}.
Implicit Types (self : SQLMeshMultiAssetOptions.t O D) (m : gmap string AssetOut).

Lemma resolved_items (l : list (string * O)) (ys : list (string * AssetOut)) :
  Forall2 (λ item y, (out ← to_asset_out item.2; mret (item.1, out)) = Return y) l ys →
  ys.*1 = l.*1 ∧
  ∀ k a, (k, a) ∈ ys ↔ ∃ o, (k, o) ∈ l ∧ to_asset_out o = Return a.
Proof.
  induction 1 as [|[k o] y l ys Hy Hrest [IHkeys IH]].
  - split; [done|]. intros k a. split; [by intros ?%elem_of_nil|].
    by intros [o [?%elem_of_nil _]].
  - cbn [fst snd] in Hy.
    destruct (to_asset_out o) as [a|e] eqn:Ho; [|done].
    cbn [mbind Exc_bind mret Exc_ret] in Hy. injection Hy as <-.
    split; [by rewrite !fmap_cons, IHkeys|].
    intros k' a'. rewrite elem_of_cons, IH. split.
    + intros [[= -> ->]|[o' [Hin Ho']]].
      * exists o. split; [by left|done].
      * exists o'. split; [by right|done].
    + intros [o' [[[= -> ->]|Hin]%elem_of_cons Ho']].
      * left. congruence.
      * right. by exists o'.
Qed.

Lemma to_asset_outs_Return self m :
  SQLMeshMultiAssetOptions.to_asset_outs self = Return m →
  ∀ k, match SQLMeshMultiAssetOptions.outs self !! k with
       | Some o => ∃ a, to_asset_out o = Return a ∧ m !! k = Some a
       | None => m !! k = None
       end.
Proof.
  unfold SQLMeshMultiAssetOptions.to_asset_outs.
  destruct (mapM _ _) as [ys|e] eqn:Hmap; [|done].
  cbn [mbind Exc_bind mret Exc_ret]. intros [= <-].
  apply mapM_Return, resolved_items in Hmap as [Hkeys Hitems].
  assert (NoDup ys.*1) as Hnodup by (rewrite Hkeys; apply NoDup_fst_map_to_list).
  intros k. destruct (SQLMeshMultiAssetOptions.outs self !! k) as [o|] eqn:Hk.
  - apply elem_of_map_to_list in Hk.
    destruct (to_asset_out o) as [a|e] eqn:Ho.
    + exists a. split; [done|]. apply elem_of_list_to_map; [done|].
      apply Hitems. by exists o.
    + exfalso.
      assert (k ∈ ys.*1) as Hin.
      { rewrite Hkeys. apply list_elem_of_fmap. by exists (k, o). }
      apply list_elem_of_fmap in Hin as [[k' a] [Heq Hin]]. simpl in Heq. subst k'.
      apply Hitems in Hin as [o' [Hin' Ho']].
      apply elem_of_map_to_list in Hk, Hin'. congruence.
  - apply not_elem_of_list_to_map. rewrite Hkeys.
    intros [[k' o] [Heq Hin]]%list_elem_of_fmap. simpl in Heq. subst k'.
    apply elem_of_map_to_list in Hin. congruence.
Qed.

(** [to_asset_outs] is all or nothing: it returns a map exactly when
    every output resolves, and the map then has the keys of [outs], each
    with its resolved output; when it raises, it raises the error of one
    of the outputs, and it does raise when one of them does. *)
Theorem to_asset_outs_all_or_nothing self :
  (∀ m, SQLMeshMultiAssetOptions.to_asset_outs self = Return m ↔
        ∀ k, match SQLMeshMultiAssetOptions.outs self !! k with
             | Some o => ∃ a, to_asset_out o = Return a ∧ m !! k = Some a
             | None => m !! k = None
             end) ∧
  (∀ e, SQLMeshMultiAssetOptions.to_asset_outs self = Raise e →
        ∃ k o, SQLMeshMultiAssetOptions.outs self !! k = Some o ∧
               to_asset_out o = Raise e) ∧
  (∀ k o e, SQLMeshMultiAssetOptions.outs self !! k = Some o →
            to_asset_out o = Raise e →
            ∃ e', SQLMeshMultiAssetOptions.to_asset_outs self = Raise e').
Proof.
  split; [|split].
  - intros m. split; [apply to_asset_outs_Return|]. intros Hm.
    destruct (SQLMeshMultiAssetOptions.to_asset_outs self) as [m'|e] eqn:Hself.
    + f_equal. pose proof (to_asset_outs_Return _ _ Hself) as Hres.
      apply map_eq. intros k. specialize (Hm k). specialize (Hres k).
      rename Hres into Hself'.
      destruct (SQLMeshMultiAssetOptions.outs self !! k) as [o|].
      * destruct Hm as [a [Ha ->]], Hself' as [a' [Ha' ->]]. congruence.
      * congruence.
    + exfalso. unfold SQLMeshMultiAssetOptions.to_asset_outs in Hself.
      destruct (mapM _ _) as [ys|e'] eqn:Hmap; [done|].
      apply mapM_Raise in Hmap as [[k o] [Hin Ho]].
      apply elem_of_map_to_list in Hin. specialize (Hm k). rewrite Hin in Hm.
      destruct Hm as [a [Ha _]]. simpl in Ho. by rewrite Ha in Ho.
  - intros e. unfold SQLMeshMultiAssetOptions.to_asset_outs.
    destruct (mapM _ _) as [ys|e'] eqn:Hmap; [done|].
    cbn [mbind Exc_bind]. intros [= ->].
    apply mapM_Raise in Hmap as [[k o] [Hin Ho]].
    apply elem_of_map_to_list in Hin. exists k, o. split; [done|].
    simpl in Ho. destruct (to_asset_out o) as [a|e']; [done|].
    by injection Ho as ->.
  - intros k o e Hk Ho.
    destruct (SQLMeshMultiAssetOptions.to_asset_outs self) as [m|e'] eqn:Hself;
      [|by eexists].
    pose proof (to_asset_outs_Return _ _ Hself k) as Hres. rewrite Hk in Hres.
    destruct Hres as [a [Ha _]]. congruence.
Qed.

(** [to_internal_asset_deps] keeps the keys, and under each key puts the
    set of the asset keys of the names there: a key is in the new set
    exactly when it is read from one of the names, so that the set has at
    most as many members as there were names. *)
Theorem to_internal_asset_deps_image (from_user_string : string → AssetKey) self
    (key : string) :
  match SQLMeshMultiAssetOptions.internal_asset_deps self !! key with
  | Some names =>
      ∃ keys,
        SQLMeshMultiAssetOptions.to_internal_asset_deps from_user_string self !! key
          = Some keys ∧
        (∀ a, a ∈ keys ↔ ∃ name, name ∈ names ∧ a = from_user_string name) ∧
        (size keys ≤ size names)%nat
  | None =>
      SQLMeshMultiAssetOptions.to_internal_asset_deps from_user_string self !! key = None
  end.
Proof.
  unfold SQLMeshMultiAssetOptions.to_internal_asset_deps. rewrite lookup_fmap.
  destruct (SQLMeshMultiAssetOptions.internal_asset_deps self !! key) as [names|];
    [|done].
  eexists. split; [done|]. split.
  - intros a. rewrite elem_of_map.
    split; intros [name [? ?]]; exists name; done.
  - unfold set_map. etrans; [apply size_list_to_set_le|].
    by rewrite length_fmap.
Qed.
End options.

(** The dependencies made by [create_asset_dep] from a list of key
    strings resolve to the asset keys of those strings, one for one and
    in the same order; options built without dependencies resolve to
    none. *)
Theorem to_asset_deps_of_keys {O : Type} (from_user_string : string → AssetKey)
    (keys : list string) (outs : option (gmap string O))
    (internal_asset_deps : option (gmap string (gset string))) :
  SQLMeshMultiAssetOptions.to_asset_deps
    (ConvertibleToAssetKey0 := IntermediateAssetDep_convertible from_user_string)
    (SQLMeshMultiAssetOptions.init outs
       (Some (SQLMeshDagsterTranslator.create_asset_dep <$> keys))
       internal_asset_deps)
    = from_user_string <$> keys ∧
  SQLMeshMultiAssetOptions.to_asset_deps
    (ConvertibleToAssetKey0 := IntermediateAssetDep_convertible from_user_string)
    (SQLMeshMultiAssetOptions.init outs None internal_asset_deps) = [].
Proof.
  split; [|done].
  unfold SQLMeshMultiAssetOptions.to_asset_deps, SQLMeshMultiAssetOptions.init.
  cbn [SQLMeshMultiAssetOptions.deps default from_option id].
  rewrite <- list_fmap_compose. by apply list_fmap_ext.
Qed.

(** On a dagster whose [AssetOut] has neither [kinds] nor [**kwargs], the
    outputs of a multi-asset resolve only when there are none: with one
    descriptor or more, [to_asset_outs] raises [TypeError]. *)
Theorem to_asset_outs_kinds_unsupported {D : Type}
    (from_user_string : string → AssetKey) (sig : Signature)
    (self : SQLMeshMultiAssetOptions.t IntermediateAssetOut.t D) :
  in_parameters "kinds" sig = false →
  has_var_keyword sig = false →
  SQLMeshMultiAssetOptions.to_asset_outs
    (ConvertibleToAssetOut0 := IntermediateAssetOut_convertible from_user_string sig)
    self
  = if decide (SQLMeshMultiAssetOptions.outs self = ∅)
    then Return ∅ else Raise TypeError.
Proof.
  intros Hkinds Hvar. unfold SQLMeshMultiAssetOptions.to_asset_outs.
  case_decide as Hempty.
  - rewrite Hempty, map_to_list_empty. reflexivity.
  - destruct (map_to_list (SQLMeshMultiAssetOptions.outs self)) as [|[k o] items] eqn:Hitems.
    + by apply map_to_list_empty_iff in Hitems.
    + cbn [mapM fst snd].
      change (to_asset_out o)
        with (IntermediateAssetOut.to_asset_out from_user_string sig o).
      by rewrite to_asset_out_kinds_unsupported.
Qed.

(** One output, made by [create_asset_out], does not resolve on a dagster
    without [kinds]. *)
Lemma to_asset_outs_kinds_unsupported_one :
  let self : SQLMeshMultiAssetOptions.t IntermediateAssetOut.t IntermediateAssetDep.t :=
    SQLMeshMultiAssetOptions.init
      (Some {[ "sqlmesh__db_main_orders" :=
                 SQLMeshDagsterTranslator.create_asset_out
                   "sqlmesh__db_main_orders" "db/main/orders" ∅ ]})
      None None in
  in_parameters "kinds" AssetOut_signature_without_kinds = false ∧
  has_var_keyword AssetOut_signature_without_kinds = false ∧
  SQLMeshMultiAssetOptions.to_asset_outs
    (ConvertibleToAssetOut0 :=
       IntermediateAssetOut_convertible slash_from_user_string
         AssetOut_signature_without_kinds)
    self = Raise TypeError.
Proof.
  intros self. split; [reflexivity|]. split; [reflexivity|].
  exact (to_asset_outs_kinds_unsupported slash_from_user_string
           AssetOut_signature_without_kinds self eq_refl eq_refl).
Defined.
